(** * Denton County property search backend: a shallow embedding of [main.py]

    The development follows the layout of the source file:
    - [Py]: the Python values that travel through the program (JSON scalars),
      exceptions, and the builtins the program calls ([str], [float], [int],
      truthiness, [or], [str.upper], [in], [str.join]);
    - the pydantic models [SearchRequest] and [PropertyRecord];
    - [geocode_address], the class [DentonCADClient], [to_excel] and the two
      routes [search_properties] and [export_properties], with the two remote
      services as an explicit environment and every outgoing request logged.

    Floats are binary64 (Rocq's primitive floats).  Strings are [string]s of
    bytes; the builtins that depend on the Unicode database ([str.upper],
    whitespace and digits in [float]) are modelled on their ASCII range and
    leave other bytes alone, and a slice counts bytes.  The spreadsheet that
    [to_excel] hands to the spreadsheet library is modelled as a table; what
    that library does with it (rendering of cells, rejected characters) is
    not. *)

From Stdlib Require Import ZArith String Ascii List Floats Lia Bool.
From stdpp Require Import base option gmap strings list pretty.

Set Warnings "-inexact-float".
Local Open Scope string_scope.
Local Open Scope Z_scope.

(** ** Python values, exceptions and builtins *)

Module Py.

(** Exceptions that the program raises itself ([HTTPException]) or that the
    builtins and libraries it calls can raise. *)
Inductive exn : Type :=
| ValueError
| TypeError
| OverflowError
| AttributeError
| KeyError (key : string)
| JSONDecodeError
| RequestException
| ValidationError (field : string)
| HTTPException (status_code : Z) (detail : string).

(** The outcome of running Python code: a value, or a raised exception. *)
Inductive result (A : Type) : Type :=
| Ok (a : A)
| Raise (e : exn).
Arguments Ok {A} a.
Arguments Raise {A} e.

#[global] Instance result_ret : MRet result := @Ok.
#[global] Instance result_bind : MBind result := λ A B f m,
  match m with Ok a => f a | Raise e => Raise e end.
#[global] Instance result_fmap : FMap result := λ A B f m,
  match m with Ok a => Ok (f a) | Raise e => Raise e end.

(** [try: ... except Exception: return None], for a body that returns an
    optional value. *)
Definition try_except_none {A} (m : result (option A)) : option A :=
  match m with Ok o => o | Raise _ => None end.

(** JSON scalars, as [json.loads] hands them to the program. *)
Inductive value : Type :=
| VNone
| VBool (b : bool)
| VInt (z : Z)
| VFloat (f : float)
| VStr (s : string).

(** [bool(v)] *)
Definition truthy (v : value) : bool :=
  match v with
  | VNone => false
  | VBool b => b
  | VInt z => negb (z =? 0)
  | VFloat f => negb (PrimFloat.eqb f 0%float)
  | VStr s => negb (String.eqb s "")
  end.

(** [a or b] *)
Definition or (a b : value) : value := if truthy a then a else b.

(** [d.get(k)] and [d.get(k, default)] *)
Definition get (d : gmap string value) (k : string) : value :=
  default VNone (d !! k).
Definition get_default (d : gmap string value) (k : string) (dflt : value) : value :=
  default dflt (d !! k).

(** [d[k]] *)
Definition getitem (d : gmap string value) (k : string) : result value :=
  match d !! k with Some v => Ok v | None => Raise (KeyError k) end.

(** *** Characters and strings *)

Definition is_digit (c : ascii) : bool :=
  (48 <=? nat_of_ascii c)%nat && (nat_of_ascii c <=? 57)%nat.
Definition digit_val (c : ascii) : Z := Z.of_nat (nat_of_ascii c) - 48.
Definition digit_char (d : Z) : ascii := ascii_of_nat (Z.to_nat (48 + d)).

(** The whitespace [float] strips from an ASCII string: TAB..CR and space. *)
Definition is_space (c : ascii) : bool :=
  let n := nat_of_ascii c in
  ((9 <=? n) && (n <=? 13) || (n =? 32))%nat.

Definition upper_char (c : ascii) : ascii :=
  let n := nat_of_ascii c in
  if ((97 <=? n) && (n <=? 122))%nat then ascii_of_nat (n - 32) else c.
Definition lower_char (c : ascii) : ascii :=
  let n := nat_of_ascii c in
  if ((65 <=? n) && (n <=? 90))%nat then ascii_of_nat (n + 32) else c.

(** [s.upper()] *)
Fixpoint upper (s : string) : string :=
  match s with
  | EmptyString => EmptyString
  | String c s' => String (upper_char c) (upper s')
  end.

(** [sep.join(parts)] *)
Fixpoint join (sep : string) (parts : list string) : string :=
  match parts with
  | [] => ""
  | [p] => p
  | p :: ps => p +:+ sep +:+ join sep ps
  end.

(** [s.startswith(p)] *)
Fixpoint startswith (p s : string) : bool :=
  match p, s with
  | EmptyString, _ => true
  | String a p', String b s' => Ascii.eqb a b && startswith p' s'
  | String _ _, EmptyString => false
  end.

(** [sub in s] *)
Fixpoint contains (sub s : string) : bool :=
  startswith sub s ||
  match s with
  | EmptyString => false
  | String _ s' => contains sub s'
  end.

(** [s[:n]] *)
Fixpoint take (n : nat) (s : string) : string :=
  match n, s with
  | S n', String c s' => String c (take n' s')
  | _, _ => EmptyString
  end.

(** *** Numbers *)

(** The binary64 value nearest to [m * 2^e] (ties to even); an infinity
    when that overflows. *)
Definition round_binary64 (m e : Z) : spec_float :=
  binary_normalize 53 1024 m e false.

(** The binary64 value nearest to [d * 10^e10], for [0 <= d]: what a
    correctly rounding decimal reader returns.  A negative power of ten is
    divided out with a sticky bit below the rounding position. *)
Definition round_decimal (d e10 : Z) : spec_float :=
  if d =? 0 then S754_zero false
  else if 0 <=? e10 then round_binary64 (d * 10 ^ e10) 0
  else
    let den := 10 ^ (- e10) in
    let k := Z.max 0 (Z.log2 den - Z.log2 d + 60) in
    let q := (d * 2 ^ k) / den in
    let sticky := if (d * 2 ^ k) mod den =? 0 then 0 else 1 in
    round_binary64 (2 * q + sticky) (- k - 1).

(** [float(z)] for an int: [OverflowError] when [z] is too large. *)
Definition float_of_int (z : Z) : result float :=
  match round_binary64 z 0 with
  | S754_infinity _ => Raise OverflowError
  | sf => Ok (SF2Prim sf)
  end.

(** [int(f)] for a float: truncation towards zero. *)
Definition int_of_float (f : float) : result Z :=
  match Prim2SF f with
  | S754_zero _ => Ok 0
  | S754_infinity _ => Raise OverflowError
  | S754_nan => Raise ValueError
  | S754_finite s m e =>
      let a := if 0 <=? e then Z.pos m * 2 ^ e else Z.pos m / 2 ^ (- e) in
      Ok (if s then - a else a)
  end.

(** *** [float(s)] for a string *)

Fixpoint lstrip (s : list ascii) : list ascii :=
  match s with
  | c :: s' => if is_space c then lstrip s' else s
  | [] => []
  end.
Definition strip (s : list ascii) : list ascii :=
  rev (lstrip (rev (lstrip s))).

(** An underscore is accepted only between two digits; accepted
    underscores are removed before the number is read. *)
Fixpoint drop_underscores (prev : option ascii) (s : list ascii)
  : option (list ascii) :=
  match s with
  | [] => if decide (prev = Some "_"%char) then None else Some []
  | c :: s' =>
      if decide (c = "_"%char) then
        if from_option is_digit false prev
        then drop_underscores (Some c) s' else None
      else if bool_decide (prev = Some "_"%char) && negb (is_digit c) then None
      else (c ::.) <$> drop_underscores (Some c) s'
  end.

Definition parse_sign (s : list ascii) : bool * list ascii :=
  match s with
  | c :: s' =>
      if decide (c = "+"%char) then (false, s')
      else if decide (c = "-"%char) then (true, s')
      else (false, s)
  | [] => (false, s)
  end.

Fixpoint span_digits (s : list ascii) : list ascii * list ascii :=
  match s with
  | c :: s' =>
      if is_digit c
      then let '(ds, r) := span_digits s' in (c :: ds, r)
      else ([], s)
  | [] => ([], [])
  end.

Definition digits_val (ds : list ascii) : Z :=
  fold_left (λ acc c, 10 * acc + digit_val c) ds 0.

(** The optional exponent part, which must end the string. *)
Definition parse_exponent (s : list ascii) : option Z :=
  match s with
  | [] => Some 0
  | c :: s' =>
      if decide (lower_char c = "e"%char) then
        let '(neg, s'') := parse_sign s' in
        match span_digits s'' with
        | ((_ :: _) as ds, []) =>
            Some (if neg then - digits_val ds else digits_val ds)
        | _ => None
        end
      else None
  end.

(** [digits [. digits] [exponent]] or [. digits [exponent]], read as the
    pair [(d, e10)] standing for [d * 10^e10]. *)
Definition parse_decimal (s : list ascii) : option (Z * Z) :=
  let '(ip, r) := span_digits s in
  let '(fp, r') :=
    match r with
    | c :: r1 => if decide (c = "."%char) then span_digits r1 else ([], r)
    | [] => ([], r)
    end in
  match (ip ++ fp)%list with
  | [] => None
  | ds =>
      e ← parse_exponent r';
      Some (digits_val ds, e - Z.of_nat (length fp))
  end.

Definition parse_float_body (s : list ascii) : option spec_float :=
  let w := string_of_list_ascii (map lower_char s) in
  if decide (w = "inf" ∨ w = "infinity") then Some (S754_infinity false)
  else if decide (w = "nan") then Some S754_nan
  else
    '(d, e10) ← parse_decimal s;
    Some (if d =? 0 then S754_zero false
          else if 310 <? e10 then S754_infinity false
          else if e10 + Z.of_nat (length s) <? -330 then S754_zero false
          else round_decimal d e10).

Definition float_of_str (s : string) : result float :=
  let parsed :=
    t ← drop_underscores None (strip (list_ascii_of_string s));
    let '(neg, body) := parse_sign t in
    sf ← parse_float_body body;
    Some (SF2Prim (if neg then SFopp sf else sf)) in
  match parsed with
  | Some f => Ok f
  | None => Raise ValueError
  end.

(** *** [repr(f)] for a float: the shortest decimal that reads back as [f] *)

Definition ndigits (n : Z) : Z := Z.of_nat (String.length (pretty n)).

(** For [x = num / den > 0], the [p] with [10^(p-1) <= x < 10^p]. *)
Definition decimal_point (num den : Z) : Z :=
  ndigits (num * 10 ^ 400 / den) - 400.

(** The [n]-digit decimal [c * 10^(p-n)] nearest to [num / den] among those
    that read back as [f], if there is one. *)
Definition shortest_candidate (f : float) (num den p n : Z) : option Z :=
  let k := n - p in
  let a := if 0 <=? k then num * 10 ^ k else num in
  let b := if 0 <=? k then den else den * 10 ^ (- k) in
  let lo := a / b in
  let hi := lo + 1 in
  let r := a mod b in
  let reads_back c := PrimFloat.eqb (SF2Prim (round_decimal c (p - n))) f in
  match reads_back lo, reads_back hi with
  | true, true =>
      Some (if 2 * r <? b then lo
            else if b <? 2 * r then hi
            else if Z.even lo then lo else hi)
  | true, false => Some lo
  | false, true => Some hi
  | false, false => None
  end.

Fixpoint shortest_digits (fuel : nat) (f : float) (num den p n : Z) : Z * Z :=
  match fuel with
  | O => (0, n)
  | S fuel' =>
      match shortest_candidate f num den p n with
      | Some c => (c, n)
      | None => shortest_digits fuel' f num den p (n + 1)
      end
  end.

Fixpoint rstrip_zeros_rev (s : list ascii) : list ascii :=
  match s with
  | c :: s' => if decide (c = "0"%char) then rstrip_zeros_rev s' else s
  | [] => []
  end.
Definition rstrip_zeros (s : list ascii) : list ascii :=
  rev (rstrip_zeros_rev (rev s)).

Definition zeros (n : Z) : string :=
  string_of_list_ascii (replicate (Z.to_nat n) "0"%char).

(** The layout of [repr]: exponent form when the decimal point falls more
    than 16 places after or more than 3 zeros before the first digit. *)
Definition format_short (digits : string) (decpt : Z) : string :=
  let nd := Z.of_nat (String.length digits) in
  if (decpt <=? -4) || (16 <? decpt) then
    let e := decpt - 1 in
    let mant :=
      match digits with
      | String c EmptyString => digits
      | String c rest => String c ("." +:+ rest)
      | EmptyString => digits
      end in
    let ea := pretty (Z.abs e) in
    mant +:+ "e" +:+ (if e <? 0 then "-" else "+")
         +:+ (if Z.abs e <? 10 then "0" else "") +:+ ea
  else if decpt <=? 0 then "0." +:+ zeros (- decpt) +:+ digits
  else if nd <=? decpt then digits +:+ zeros (decpt - nd) +:+ ".0"
  else take (Z.to_nat decpt) digits +:+ "."
       +:+ string_of_list_ascii (drop (Z.to_nat decpt) (list_ascii_of_string digits)).

Definition repr_float (f : float) : string :=
  match Prim2SF f with
  | S754_nan => "nan"
  | S754_infinity s => if s then "-inf" else "inf"
  | S754_zero s => if s then "-0.0" else "0.0"
  | S754_finite s m e =>
      let num := if 0 <=? e then Z.pos m * 2 ^ e else Z.pos m in
      let den := if 0 <=? e then 1 else 2 ^ (- e) in
      let p := decimal_point num den in
      let '(c, n) := shortest_digits 17 (abs f) num den p 1 in
      let raw := pretty c in
      let digits :=
        string_of_list_ascii (rstrip_zeros (list_ascii_of_string raw)) in
      let decpt := p + (Z.of_nat (String.length raw) - n) in
      (if s then "-" else "") +:+ format_short digits decpt
  end.

(** *** The conversions the program calls *)

(** [str(v)] *)
Definition to_str (v : value) : string :=
  match v with
  | VNone => "None"
  | VBool b => if b then "True" else "False"
  | VInt z => pretty z
  | VFloat f => repr_float f
  | VStr s => s
  end.

(** [float(v)] *)
Definition to_float (v : value) : result float :=
  match v with
  | VNone => Raise TypeError
  | VBool b => Ok (if b then 1%float else 0%float)
  | VInt z => float_of_int z
  | VFloat f => Ok f
  | VStr s => float_of_str s
  end.

(** [isinstance(v, (int, float))]; [bool] is a subclass of [int]. *)
Definition is_number (v : value) : bool :=
  match v with
  | VBool _ | VInt _ | VFloat _ => true
  | VNone | VStr _ => false
  end.

End Py.

Import Py.

Notation "a `or` b" := (Py.or a b) (at level 50, left associativity).

(** ** Models *)

Module SearchRequest.

Record t : Type := mk {
  address : string;
  county : string;
  radius_miles : float;
  single_family_only : bool;
}.

(** A JSON request body whose present fields carry values of the declared
    types; [None] is a field the body leaves out.  (pydantic's coercion of
    other JSON types to the declared ones is outside the model.) *)
Record body : Type := mk_body {
  body_address : option string;
  body_county : option string;
  body_radius_miles : option float;
  body_single_family_only : option bool;
}.

(** Validation of a body against the four [Field] declarations:
    [address = Field(...)] is required, the others carry a default, and
    [radius_miles] has the constraint [gt=0]. *)
Definition validate (b : body) : result t :=
  match body_address b with
  | None => Raise (ValidationError "address")
  | Some a =>
      match body_radius_miles b with
      | Some r =>
          if PrimFloat.ltb 0%float r then
            Ok {| address := a;
                  county := default "Denton County, TX" (body_county b);
                  radius_miles := r;
                  single_family_only := default true (body_single_family_only b) |}
          else Raise (ValidationError "radius_miles")
      | None =>
          Ok {| address := a;
                county := default "Denton County, TX" (body_county b);
                radius_miles := 2.0%float;
                single_family_only := default true (body_single_family_only b) |}
      end
  end.

End SearchRequest.

Module PropertyRecord.

Record t : Type := mk {
  parcel_id : option string;
  address : option string;
  owner : option string;
  land_value : option float;
  improvement_value : option float;
  total_appraised_value : option float;
  year_built : option Z;
  lot_size : option float;
  legal_description : option string;
  property_class : option string;
  land_use : option string;
  longitude : option float;
  latitude : option float;
}.

End PropertyRecord.

(** ** The remote services and the log of requests *)

(** The query string of the geocoding request. *)
Record geocode_params : Type := {
  q : string;
  format : string;
  limit : Z;
  addressdetails : Z;
}.

(** The query string of the ArcGIS request. *)
Record query_params : Type := {
  f : string;
  where_ : string;
  geometry : string;
  geometryType : string;
  inSR : Z;
  spatialRel : string;
  distance : float;
  units : string;
  outFields : string;
  outSR : Z;
  returnGeometry : bool;
}.

(** One feature of the ArcGIS answer whose members are objects: [attributes]
    is [None] when the key is missing, [geometry] is [None] when the key is
    missing or null.  (What [normalize] does on a feature whose members are
    not objects is [normalize_parsed], below.) *)
Record raw_feature : Type := {
  attributes : option (gmap string value);
  feature_geometry : option (gmap string value);
}.

(** The JSON object ArcGIS answers with: an [error] payload (kept as its
    [str] form) and/or a [features] array. *)
Record arcgis_body : Type := {
  error : option string;
  features : option (list raw_feature);
}.

(** What the program reads of a [requests.Response]; [json] raises when the
    body is not JSON. *)
Record response (J : Type) : Type := {
  status_code : Z;
  text : string;
  json : result J;
}.
Arguments status_code {J} _.
Arguments text {J} _.
Arguments json {J} _.

(** The environment of a request: the two remote services (a call can raise,
    e.g. on a timeout) and the environment variable that overrides the layer
    URL. *)
Record world : Type := {
  nominatim : geocode_params → result (response (list (gmap string value)));
  arcgis : string → query_params → result (response arcgis_body);
  ARCGIS_PARCELS_URL : option string;
}.

(** Outgoing HTTP requests, logged in the order they are sent. *)
Inductive call : Type :=
| NominatimGet (url : string) (params : geocode_params)
| ArcgisGet (url : string) (params : query_params).

(** Code that sends requests: it extends the log and returns or raises. *)
Definition io (A : Type) : Type := list call → list call * result A.

#[global] Instance io_ret : MRet io := λ A a log, (log, Ok a).
#[global] Instance io_bind : MBind io := λ A B k m log,
  match m log with
  | (log', Ok a) => k a log'
  | (log', Raise e) => (log', Raise e)
  end.

Definition raise {A} (e : exn) : io A := λ log, (log, Raise e).
Definition lift {A} (r : result A) : io A := λ log, (log, r).
Definition send {A} (c : call) (answer : result A) : io A :=
  λ log, ((log ++ [c])%list, answer).

(** ** Helpers *)

Definition NOMINATIM_URL : string := "https://nominatim.openstreetmap.org/search".

Record coords : Type := { lat : float; lon : float }.

Definition geocode_address (w : world) (address : string) : io coords :=
  let params :=
    {| q := address; format := "json"; limit := 1; addressdetails := 1 |} in
  r ← send (NominatimGet NOMINATIM_URL params) (nominatim w params);
  if negb (status_code r =? 200) then
    raise (HTTPException 502 ("Geocoding failed: " +:+ take 200 (text r)))
  else
    results ← lift (json r);
    match results with
    | [] => raise (HTTPException 404 "Address not found")
    | item :: _ =>
        lat ← lift (getitem item "lat" ≫= to_float);
        lon ← lift (getitem item "lon" ≫= to_float);
        mret {| lat := lat; lon := lon |}
    end.

Module DentonCADClient.

(** An instance holds the layer URL ([self.layer_url]). *)
Record t : Type := { layer_url : string }.

Definition DEFAULT_LAYER_URL (w : world) : string :=
  default "https://gis.dentoncounty.gov/arcgis/rest/services/DCAD_public/MapServer/0"
    (ARCGIS_PARCELS_URL w).

Definition init (w : world) : t := {| layer_url := DEFAULT_LAYER_URL w |}.

Definition miles_to_meters (miles : float) : float := (miles * 1609.34)%float.

Definition query_nearby (w : world) (self : t) (lon lat radius_miles : float)
  : io (list raw_feature) :=
  let params :=
    {| f := "json";
       where_ := "1=1";
       geometry := to_str (VFloat lon) +:+ "," +:+ to_str (VFloat lat);
       geometryType := "esriGeometryPoint";
       inSR := 4326;
       spatialRel := "esriSpatialRelIntersects";
       distance := miles_to_meters radius_miles;
       units := "esriSRUnit_Meter";
       outFields := "*";
       outSR := 4326;
       returnGeometry := true |} in
  let url := layer_url self +:+ "/query" in
  r ← send (ArcgisGet url params) (arcgis w url params);
  if negb (status_code r =? 200) then
    raise (HTTPException 502 ("Denton CAD query failed: " +:+ take 200 (text r)))
  else
    data ← lift (json r);
    match error data with
    | Some e => raise (HTTPException 502 ("Denton CAD error: " +:+ e))
    | None => mret (default [] (features data))
    end.

Definition is_single_family (attrs : gmap string value) : bool :=
  let candidates :=
    [ to_str (get_default attrs "LAND_USE" (VStr ""));
      to_str (get_default attrs "LandUse" (VStr ""));
      to_str (get_default attrs "PROPERTY_CLASS" (VStr ""));
      to_str (get_default attrs "PropertyClass" (VStr ""));
      to_str (get_default attrs "PROP_CLASS" (VStr ""));
      to_str (get_default attrs "PropClass" (VStr ""));
      to_str (get_default attrs "PROPERTY_TYPE" (VStr "")) ] in
  let text := upper (join " " candidates) in
  contains "SINGLE" text || contains "SF" text.

Definition norm_float (val : value) : option float :=
  try_except_none
    (match val with
     | VNone => Ok None
     | _ => Some <$> to_float val
     end).

Definition norm_int (val : value) : option Z :=
  try_except_none
    (match val with
     | VNone => Ok None
     | _ => Some <$> (to_float val ≫= int_of_float)
     end).

(** [str(v) if v is not None else None] *)
Definition str_or_none (v : value) : option string :=
  match v with
  | VNone => None
  | _ => Some (to_str v)
  end.

(** [float(v) if isinstance(v, (int, float)) else None] *)
Definition float_if_number (v : value) : result (option float) :=
  if is_number v then Some <$> to_float v else Ok None.

Definition normalize (self : t) (feature : raw_feature) : result PropertyRecord.t :=
  let attrs := default ∅ (attributes feature) in
  let geom := default ∅ (feature_geometry feature) in
  let x := get geom "x" in
  let y := get geom "y" in
  let parcel_id :=
    get attrs "PARCEL_ID"
    `or` get attrs "ParcelID"
    `or` get attrs "ACCOUNT"
    `or` get attrs "Account"
    `or` get attrs "OBJECTID" in
  let address :=
    get attrs "SITUS_ADDR"
    `or` get attrs "SitusAddress"
    `or` get attrs "SITUS"
    `or` get attrs "Address" in
  let owner := get attrs "OWNER" `or` get attrs "OwnerName" `or` get attrs "OWNER_NAME" in
  let land_value :=
    norm_float
      (get attrs "LAND_VALUE" `or` get attrs "LandValue" `or` get attrs "LANDVAL") in
  let impr_value :=
    norm_float
      (get attrs "IMPR_VALUE" `or` get attrs "ImprovementValue" `or` get attrs "IMPRVAL") in
  let total_val :=
    norm_float
      (get attrs "TOTAL_VALUE"
       `or` get attrs "TotalValue"
       `or` get attrs "MKT_VAL"
       `or` get attrs "APPR_VALUE"
       `or` get attrs "ApprValue") in
  let year_built := norm_int (get attrs "YEAR_BUILT" `or` get attrs "YearBuilt") in
  let lot_size :=
    norm_float
      (get attrs "LOT_SIZE" `or` get attrs "LotSize" `or` get attrs "ACRES" `or` get attrs "Acres") in
  let legal_description :=
    get attrs "LEGAL_DESC" `or` get attrs "LegalDesc" `or` get attrs "LEGAL_DESCRIPTION" in
  let prop_class :=
    get attrs "PROPERTY_CLASS" `or` get attrs "PropClass" `or` get attrs "PROP_CLASS" in
  let land_use := get attrs "LAND_USE" `or` get attrs "LandUse" in
  longitude ← float_if_number x;
  latitude ← float_if_number y;
  Ok {| PropertyRecord.parcel_id := str_or_none parcel_id;
        PropertyRecord.address := str_or_none address;
        PropertyRecord.owner := str_or_none owner;
        PropertyRecord.land_value := land_value;
        PropertyRecord.improvement_value := impr_value;
        PropertyRecord.total_appraised_value := total_val;
        PropertyRecord.year_built := year_built;
        PropertyRecord.lot_size := lot_size;
        PropertyRecord.legal_description := str_or_none legal_description;
        PropertyRecord.property_class := str_or_none prop_class;
        PropertyRecord.land_use := str_or_none land_use;
        PropertyRecord.longitude := longitude;
        PropertyRecord.latitude := latitude |}.

End DentonCADClient.

(** The worksheet that [to_excel] hands to the spreadsheet library: one
    sheet, the columns in the preferred order (no column when there is no
    record), one row per record.  (How the library renders a cell, which
    characters it rejects and the byte encoding of the workbook are the
    library's.) *)
Record sheet : Type := {
  sheet_name : string;
  header : list string;
  rows : list (list value);
}.

Definition to_excel (records : list PropertyRecord.t) : sheet :=
  let str_cell := from_option VStr VNone in
  let float_cell := from_option VFloat VNone in
  let row (r : PropertyRecord.t) :=
    [ str_cell (PropertyRecord.parcel_id r);
      str_cell (PropertyRecord.address r);
      str_cell (PropertyRecord.owner r);
      float_cell (PropertyRecord.total_appraised_value r);
      float_cell (PropertyRecord.land_value r);
      float_cell (PropertyRecord.improvement_value r);
      from_option VInt VNone (PropertyRecord.year_built r);
      float_cell (PropertyRecord.lot_size r);
      str_cell (PropertyRecord.legal_description r);
      str_cell (PropertyRecord.property_class r);
      str_cell (PropertyRecord.land_use r);
      float_cell (PropertyRecord.latitude r);
      float_cell (PropertyRecord.longitude r) ] in
  let preferred :=
    [ "parcel_id"; "address"; "owner"; "total_appraised_value"; "land_value";
      "improvement_value"; "year_built"; "lot_size"; "legal_description";
      "property_class"; "land_use"; "latitude"; "longitude" ] in
  {| sheet_name := "Properties";
     header := match records with [] => [] | _ :: _ => preferred end;
     rows := map row records |}.

(** ** Routes *)

Definition search_properties (w : world) (req : SearchRequest.t)
  : io (list PropertyRecord.t) :=
  coords ← geocode_address w
    (SearchRequest.address req +:+ ", " +:+ SearchRequest.county req);
  let client := DentonCADClient.init w in
  features ← DentonCADClient.query_nearby w client
    (lon coords) (lat coords) (SearchRequest.radius_miles req);
  records ← lift (mapM (DentonCADClient.normalize client) features);
  let records :=
    if SearchRequest.single_family_only req then
      (filter (λ rf, DentonCADClient.is_single_family
                       (default ∅ (attributes rf.2)) = true)
              (zip records features)).*1
    else records in
  mret records.

Record streaming_response : Type := {
  content : sheet;
  content_disposition : string;
  media_type : string;
}.

Definition export_properties (w : world) (req : SearchRequest.t)
  : io streaming_response :=
  results ← search_properties w req;
  match results with
  | [] => raise (HTTPException 404 "No properties found for the specified criteria")
  | _ :: _ =>
      let xlsx := to_excel results in
      let filename := "denton_properties.xlsx" in
      mret {| content := xlsx;
              content_disposition := "attachment; filename=" +:+ filename;
              media_type :=
                "application/vnd.openxmlformats-officedocument.spreadsheetml.sheet" |}
  end.

(** ** The vocabulary of the specification *)

(** The error kinds of the specification, as the exceptions the routes raise. *)
Definition AddressNotFound : exn := HTTPException 404 "Address not found".
Definition NoResultsForExport : exn :=
  HTTPException 404 "No properties found for the specified criteria".

(** The attribute map and the geometry that [normalize] reads of a feature. *)
Definition attrs_of (feature : raw_feature) : gmap string value :=
  default ∅ (attributes feature).
Definition geom_of (feature : raw_feature) : gmap string value :=
  default ∅ (feature_geometry feature).

(** The canonical fields that [normalize] fills from the attributes. *)
Inductive field : Type :=
| ParcelId | Address | Owner
| LandValue | ImprovementValue | TotalValue | YearBuilt | LotSize
| LegalDescription | PropertyClass | LandUse.

(** The priority list of upstream names of each field, in the order of the
    [or] chains of [normalize]. *)
Definition aliases (fld : field) : list string :=
  match fld with
  | ParcelId => ["PARCEL_ID"; "ParcelID"; "ACCOUNT"; "Account"; "OBJECTID"]
  | Address => ["SITUS_ADDR"; "SitusAddress"; "SITUS"; "Address"]
  | Owner => ["OWNER"; "OwnerName"; "OWNER_NAME"]
  | LandValue => ["LAND_VALUE"; "LandValue"; "LANDVAL"]
  | ImprovementValue => ["IMPR_VALUE"; "ImprovementValue"; "IMPRVAL"]
  | TotalValue => ["TOTAL_VALUE"; "TotalValue"; "MKT_VAL"; "APPR_VALUE"; "ApprValue"]
  | YearBuilt => ["YEAR_BUILT"; "YearBuilt"]
  | LotSize => ["LOT_SIZE"; "LotSize"; "ACRES"; "Acres"]
  | LegalDescription => ["LEGAL_DESC"; "LegalDesc"; "LEGAL_DESCRIPTION"]
  | PropertyClass => ["PROPERTY_CLASS"; "PropClass"; "PROP_CLASS"]
  | LandUse => ["LAND_USE"; "LandUse"]
  end.

(** The target numeric type of a numeric-mapped field. *)
Inductive numeric : Type := TFloat | TInt.

Definition numeric_type (fld : field) : option numeric :=
  match fld with
  | LandValue | ImprovementValue | TotalValue | LotSize => Some TFloat
  | YearBuilt => Some TInt
  | ParcelId | Address | Owner | LegalDescription | PropertyClass | LandUse => None
  end.

(** A field of a record, whatever its type. *)
Inductive field_value : Type :=
| StrField (o : option string)
| FloatField (o : option float)
| IntField (o : option Z).

Definition field_of (r : PropertyRecord.t) (fld : field) : field_value :=
  match fld with
  | ParcelId => StrField (PropertyRecord.parcel_id r)
  | Address => StrField (PropertyRecord.address r)
  | Owner => StrField (PropertyRecord.owner r)
  | LandValue => FloatField (PropertyRecord.land_value r)
  | ImprovementValue => FloatField (PropertyRecord.improvement_value r)
  | TotalValue => FloatField (PropertyRecord.total_appraised_value r)
  | YearBuilt => IntField (PropertyRecord.year_built r)
  | LotSize => FloatField (PropertyRecord.lot_size r)
  | LegalDescription => StrField (PropertyRecord.legal_description r)
  | PropertyClass => StrField (PropertyRecord.property_class r)
  | LandUse => StrField (PropertyRecord.land_use r)
  end.

(** The coercion [normalize] applies to the value selected for a field. *)
Definition coerce (fld : field) (v : value) : field_value :=
  match numeric_type fld with
  | None => StrField (DentonCADClient.str_or_none v)
  | Some TFloat => FloatField (DentonCADClient.norm_float v)
  | Some TInt => IntField (DentonCADClient.norm_int v)
  end.

(** The absent value of a numeric field. *)
Definition absent (ty : numeric) : field_value :=
  match ty with
  | TFloat => FloatField None
  | TInt => IntField None
  end.


(** [a1 or a2 or ... or an] over the attributes named [names]. *)
Fixpoint or_chain (attrs : gmap string value) (names : list string) : value :=
  match names with
  | [] => VNone
  | [k] => get attrs k
  | k :: ks => get attrs k `or` or_chain attrs ks
  end.

(** The selection rule in the words of the specification: the value of the
    first alias whose attribute is present and non-null. *)
Fixpoint first_present (attrs : gmap string value) (names : list string) : value :=
  match names with
  | [] => VNone
  | k :: ks =>
      match attrs !! k with
      | Some VNone | None => first_present attrs ks
      | Some v => v
      end
  end.

(** The selection rule of the code: the value of the first alias whose
    attribute is truthy; when there is none, whatever the last alias holds. *)
Definition first_truthy (attrs : gmap string value) (names : list string) : value :=
  match List.find (λ k, truthy (get attrs k)) names with
  | Some k => get attrs k
  | None => from_option (get attrs) VNone (last names)
  end.

(** [sub] occurs in [s]. *)
Definition Contains (sub s : string) : Prop :=
  ∃ pre post, s = pre +:+ sub +:+ post.

(** The classifier's search text in the words of the specification. *)
Definition classifier_fields : list string :=
  ["LAND_USE"; "LandUse"; "PROPERTY_CLASS"; "PropertyClass";
   "PROP_CLASS"; "PropClass"; "PROPERTY_TYPE"].

Definition combined_text (attrs : gmap string value) : string :=
  upper (join " " (map (λ k, from_option to_str "" (attrs !! k)) classifier_fields)).

(** The requests of a log that went to the spatial feature service. *)
Definition is_spatial_call (c : call) : bool :=
  match c with
  | ArcgisGet _ _ => true
  | NominatimGet _ _ => false
  end.
Definition spatial_calls (log : list call) : list call :=
  filter (λ c, is_spatial_call c = true) log.

(** ** Sample inputs *)

Definition feature_of (attrs : list (string * value))
    (geom : option (list (string * value))) : raw_feature :=
  {| attributes := Some (list_to_map attrs);
     feature_geometry := list_to_map <$> geom |}.

Definition sample_client : DentonCADClient.t :=
  {| DentonCADClient.layer_url := "https://gis.example.org/arcgis/rest/services/parcels/MapServer/0" |}.

(** Both spellings of the parcel id, with different values. *)
Definition feature_two_ids : raw_feature :=
  feature_of [("PARCEL_ID", VStr "R000123"); ("ParcelID", VStr "R000999")] None.

(** The preferred spelling holds the integer 0. *)
Definition feature_zero_id : raw_feature :=
  feature_of [("PARCEL_ID", VInt 0); ("ParcelID", VStr "R000999")] None.


(** A land value of 0 under the preferred spelling only. *)
Definition feature_zero_land_value : raw_feature :=
  feature_of [("LAND_VALUE", VInt 0)] None.

(** A geometry whose [x] is the integer [2^1024]. *)
Definition feature_huge_x : raw_feature :=
  feature_of [("PARCEL_ID", VStr "R000123")]
    (Some [("x", VInt (2 ^ 1024)); ("y", VInt 33)]).

(** Three parcels: a single-family home, a shop, a single-family home. *)
Definition feature_home_1 : raw_feature :=
  feature_of [("PARCEL_ID", VStr "R1"); ("LAND_USE", VStr "single family residential");
              ("TOTAL_VALUE", VInt 250000)]
    (Some [("x", VFloat (-97.13)%float); ("y", VFloat 33.21%float)]).
Definition feature_shop : raw_feature :=
  feature_of [("PARCEL_ID", VStr "R2"); ("LAND_USE", VStr "commercial")] None.
Definition feature_home_2 : raw_feature :=
  feature_of [("PARCEL_ID", VStr "R3"); ("PropClass", VStr "A1 - SF detached");
              ("YEAR_BUILT", VStr "2005.0")] None.

Definition ok_response {J} (body : J) : result (response J) :=
  Ok {| status_code := 200; text := ""; json := Ok body |}.

Definition one_candidate : list (gmap string value) :=
  [list_to_map [("lat", VStr "33.2148"); ("lon", VStr "-97.1331")]].

(** Geocoding finds the address; the layer answers with [fs]. *)
Definition world_with_features (fs : list raw_feature) : world :=
  {| nominatim := λ _, ok_response one_candidate;
     arcgis := λ _ _, ok_response {| error := None; features := Some fs |};
     ARCGIS_PARCELS_URL := None |}.

(** Geocoding finds no candidate. *)
Definition world_unknown_address : world :=
  {| nominatim := λ _, ok_response [];
     arcgis := λ _ _, ok_response {| error := None; features := Some [feature_home_1] |};
     ARCGIS_PARCELS_URL := None |}.

Definition sample_request : SearchRequest.t :=
  {| SearchRequest.address := "123 Main St, Denton, TX";
     SearchRequest.county := "Denton County, TX";
     SearchRequest.radius_miles := 2.0%float;
     SearchRequest.single_family_only := true |}.

(** A body that carries only an empty address. *)
Definition body_empty_address : SearchRequest.body :=
  {| SearchRequest.body_address := Some "";
     SearchRequest.body_county := None;
     SearchRequest.body_radius_miles := None;
     SearchRequest.body_single_family_only := None |}.

(** ** Further vocabulary and sample inputs *)

(** The query string [geocode_address] builds for an address. *)
Definition geocode_query (address : string) : geocode_params :=
  {| q := address; format := "json"; limit := 1; addressdetails := 1 |}.

(** The query string [query_nearby] builds for a point and a radius. *)
Definition spatial_query (lon lat radius_miles : float) : query_params :=
  {| f := "json";
     where_ := "1=1";
     geometry := to_str (VFloat lon) +:+ "," +:+ to_str (VFloat lat);
     geometryType := "esriGeometryPoint";
     inSR := 4326;
     spatialRel := "esriSpatialRelIntersects";
     distance := DentonCADClient.miles_to_meters radius_miles;
     units := "esriSRUnit_Meter";
     outFields := "*";
     outSR := 4326;
     returnGeometry := true |}.

(** The value of a field that [normalize] leaves unset. *)
Definition missing (fld : field) : field_value :=
  match numeric_type fld with
  | None => StrField None
  | Some ty => absent ty
  end.

(** The uppercase string form of one candidate field of the classifier. *)
Definition candidate_text (attrs : gmap string value) (k : string) : string :=
  upper (from_option to_str "" (attrs !! k)).

(** [s] has no space in it. *)
Fixpoint no_space (s : string) : bool :=
  match s with
  | EmptyString => true
  | String c s' => negb (Ascii.eqb c " ") && no_space s'
  end.

(** The request with the single-family filter switched on or off. *)
Definition with_filter (flag : bool) (req : SearchRequest.t) : SearchRequest.t :=
  {| SearchRequest.address := SearchRequest.address req;
     SearchRequest.county := SearchRequest.county req;
     SearchRequest.radius_miles := SearchRequest.radius_miles req;
     SearchRequest.single_family_only := flag |}.

(** An answer with a status and a body that is not JSON. *)
Definition plain_response {J} (code : Z) (body : string) : result (response J) :=
  Ok {| status_code := code; text := body; json := Raise JSONDecodeError |}.

(** The geocoder is down. *)
Definition world_geocoder_down : world :=
  {| nominatim := λ _, plain_response 503 "Service Unavailable";
     arcgis := λ _ _, ok_response {| error := None; features := Some [feature_home_1] |};
     ARCGIS_PARCELS_URL := None |}.

(** The first candidate of the geocoder has no latitude. *)
Definition world_candidate_without_lat : world :=
  {| nominatim := λ _, ok_response [list_to_map [("lon", VStr "-97.1331")]];
     arcgis := λ _ _, ok_response {| error := None; features := Some [feature_home_1] |};
     ARCGIS_PARCELS_URL := None |}.

(** The layer is down. *)
Definition world_layer_down : world :=
  {| nominatim := λ _, ok_response one_candidate;
     arcgis := λ _ _, plain_response 500 "Internal Server Error";
     ARCGIS_PARCELS_URL := None |}.

(** The layer answers 200 with an error payload beside its features. *)
Definition world_layer_error : world :=
  {| nominatim := λ _, ok_response one_candidate;
     arcgis := λ _ _,
       ok_response {| error := Some "{'code': 400, 'message': 'Invalid query'}";
                      features := Some [feature_home_1] |};
     ARCGIS_PARCELS_URL := None |}.

(** The layer answers 200 with an object that has no [features] key. *)
Definition world_no_features_key : world :=
  {| nominatim := λ _, ok_response one_candidate;
     arcgis := λ _ _, ok_response {| error := None; features := None |};
     ARCGIS_PARCELS_URL := None |}.

(** The layer URL is overridden by the environment. *)
Definition world_overridden_url : world :=
  {| nominatim := λ _, ok_response one_candidate;
     arcgis := λ _ _, ok_response {| error := None; features := Some [feature_home_1] |};
     ARCGIS_PARCELS_URL := Some "https://gis.example.org/arcgis/rest/services/parcels/MapServer/7" |}.

(** A parcel known by its land use only, with extra upstream columns. *)
Definition feature_extra_columns : raw_feature :=
  feature_of [("LAND_USE", VStr "single family residential"); ("SHAPE_Area", VFloat 8712.5%float);
              ("NEIGHBORHOOD", VStr "Oak Hollow")]
    (Some [("x", VStr "-97.13"); ("y", VFloat 33.21%float)]).

Definition request_without_filter : SearchRequest.t := with_filter false sample_request.

(** A land value of 0 under the preferred spelling, and a land value under
    the next one. *)
Definition feature_zero_then_land_value : raw_feature :=
  feature_of [("LAND_VALUE", VInt 0); ("LandValue", VInt 125000)] None.

(** A member of a parsed feature: absent, null, an object, or any other JSON
    value, of which the code uses the truthiness only. *)
Inductive member : Type :=
| Absent
| Null
| Object (m : gmap string value)
| Other (truth : bool).

(** An element of the [features] array as [json] parses it: an object with
    its "attributes" and "geometry" members, or any other value. *)
Inductive parsed_feature : Type :=
| NotAnObject
| FeatureObject (attrs_member geom_member : member).

(** [normalize] on a parsed feature, with the members as they come:
    [feature.get], [geom.get] and [attrs.get] raise [AttributeError] on what
    is not an object, in the order of lines 148 to 155; a falsy geometry
    becomes the empty one. *)
Definition normalize_parsed (self : DentonCADClient.t) (feature : parsed_feature)
  : result PropertyRecord.t :=
  match feature with
  | NotAnObject => Raise AttributeError
  | FeatureObject attrs_member geom_member =>
      geom ← match geom_member with
              | Absent | Null => Ok None
              | Object m => Ok (Some m)
              | Other truth => if truth then Raise AttributeError else Ok None
              end;
      attrs ← match attrs_member with
               | Absent => Ok None
               | Object m => Ok (Some m)
               | Null | Other _ => Raise AttributeError
               end;
      DentonCADClient.normalize self
        {| attributes := attrs; feature_geometry := geom |}
  end.

(** The geometry that [normalize_parsed] reads the coordinates from. *)
Definition parsed_geometry (feature : parsed_feature) : gmap string value :=
  match feature with
  | FeatureObject _ (Object m) => m
  | _ => ∅
  end.

(** The features on which a [get] raises [AttributeError]. *)
Definition not_gettable (feature : parsed_feature) : Prop :=
  match feature with
  | NotAnObject => True
  | FeatureObject attrs_member geom_member =>
      geom_member = Other true ∨ attrs_member = Null ∨
      ∃ truth, attrs_member = Other truth
  end.

(** A parcel whose year of construction is a JSON integer. *)
Definition feature_built_1987 : raw_feature :=
  feature_of [("PARCEL_ID", VStr "R4"); ("YEAR_BUILT", VInt 1987)] None.

(** * Properties *)

(** ** Builtins *)

Lemma or_assoc a b c : (a `or` b) `or` c = a `or` (b `or` c).
Proof. unfold Py.or. destruct (truthy a) eqn:Ha; [by rewrite Ha | done]. Qed.

Lemma or_falsy a b : truthy a = false → a `or` b = b.
Proof. unfold Py.or. by intros ->. Qed.

Lemma or_truthy a b : truthy a = true → a `or` b = a.
Proof. unfold Py.or. by intros ->. Qed.

Lemma get_lookup attrs k v : attrs !! k = Some v → get attrs k = v.
Proof. unfold get. by intros ->. Qed.

Lemma get_missing attrs k : attrs !! k = None → get attrs k = VNone.
Proof. unfold get. by intros ->. Qed.

Lemma or_chain_cons attrs k k' ks :
  or_chain attrs (k :: k' :: ks) = get attrs k `or` or_chain attrs (k' :: ks).
Proof. reflexivity. Qed.

(** The [or] chain is the first truthy value, or else the last value. *)
Lemma or_chain_first_truthy attrs names :
  or_chain attrs names = first_truthy attrs names.
Proof.
  unfold first_truthy.
  induction names as [|k [|k' ks] IH]; [done| |].
  - simpl. by destruct (truthy (get attrs k)).
  - rewrite or_chain_cons, IH. unfold Py.or.
    change (List.find ?p (k :: ?l)) with (if p k then Some k else List.find p l).
    by destruct (truthy (get attrs k)).
Qed.

(** The builtins on values whose Python results are known. *)
Example to_float_examples :
  map (λ s, to_float (VStr s)) ["1609.34"; " 2005.0 "; "1_000"; "1e3"; "N/A"; ""; "1__0"]
  = [Ok 1609.34%float; Ok 2005%float; Ok 1000%float; Ok 1000%float;
     Raise ValueError; Raise ValueError; Raise ValueError].
Proof. by vm_compute. Qed.

Example to_float_control_character :
  to_float (VStr (String (ascii_of_nat 31) "5")) = Raise ValueError ∧
  to_float (VStr (String (ascii_of_nat 9) "5")) = Ok 5%float.
Proof. by vm_compute. Qed.

Example int_of_float_examples :
  map int_of_float [2005.9%float; (-2005.9)%float; infinity; nan]
  = [Ok 2005; Ok (-2005); Raise OverflowError; Raise ValueError].
Proof. by vm_compute. Qed.

Example to_str_examples :
  map to_str [VNone; VBool true; VInt (-42); VFloat 0.1%float; VFloat 1e16%float;
              VFloat 250000%float; VFloat 1e-5%float; VStr "R1"]
  = ["None"; "True"; "-42"; "0.1"; "1e+16"; "250000.0"; "1e-05"; "R1"].
Proof. by vm_compute. Qed.

Example truthy_examples :
  map truthy [VNone; VInt 0; VFloat (-0)%float; VFloat nan; VStr ""; VStr "0"; VBool false]
  = [false; false; false; true; false; true; false].
Proof. by vm_compute. Qed.

(** ** [norm_float] and [norm_int] *)




(** ** [normalize] *)

(** Every field of a returned record is the coercion of the [or] chain over
    the aliases of the field. *)
Lemma normalize_field self feature r fld :
  DentonCADClient.normalize self feature = Ok r →
  field_of r fld = coerce fld (or_chain (attrs_of feature) (aliases fld)).
Proof.
  unfold DentonCADClient.normalize. fold (attrs_of feature) (geom_of feature).
  destruct (DentonCADClient.float_if_number (get (geom_of feature) "x")); [|done].
  destruct (DentonCADClient.float_if_number (get (geom_of feature) "y")); [|done].
  intros [= <-].
  destruct fld; cbn [field_of coerce numeric_type aliases or_chain];
    simpl; by rewrite ?or_assoc.
Qed.

(** [normalize] raises only what the conversion of a coordinate raises. *)
Lemma normalize_raise self feature e :
  DentonCADClient.normalize self feature = Raise e →
  DentonCADClient.float_if_number (get (geom_of feature) "x") = Raise e ∨
  DentonCADClient.float_if_number (get (geom_of feature) "y") = Raise e.
Proof.
  unfold DentonCADClient.normalize. fold (attrs_of feature) (geom_of feature).
  destruct (DentonCADClient.float_if_number (get (geom_of feature) "x")); [|intros [= <-]; by left].
  destruct (DentonCADClient.float_if_number (get (geom_of feature) "y")); [done|intros [= <-]; by right].
Qed.

(** The conversion of a coordinate raises only for an integer too large for
    a float. *)
Lemma float_if_number_raise v e :
  DentonCADClient.float_if_number v = Raise e →
  e = OverflowError ∧ ∃ z, v = VInt z ∧ float_of_int z = Raise OverflowError.
Proof.
  unfold DentonCADClient.float_if_number.
  destruct v as [|b|z|x|s]; simpl; try done.
  destruct (float_of_int z) as [x|e'] eqn:Hz; simpl; [done|].
  intros [= <-].
  assert (e' = OverflowError) as ->.
  { revert Hz. unfold float_of_int. destruct (round_binary64 z 0); congruence. }
  eauto.
Qed.

(** [normalize] returns a record whenever no coordinate is an integer too
    large for a float. *)
Lemma normalize_returns self feature :
  (∀ k z, k ∈ ["x"; "y"] → geom_of feature !! k = Some (VInt z) →
          float_of_int z ≠ Raise OverflowError) →
  ∃ r, DentonCADClient.normalize self feature = Ok r.
Proof.
  intros Hgeom.
  destruct (DentonCADClient.normalize self feature) as [r|e] eqn:Hn; [by eexists|].
  exfalso.
  destruct (normalize_raise _ _ _ Hn) as [H|H];
    apply float_if_number_raise in H as (_ & z & Hv & Hz);
    [apply (Hgeom "x" z) | apply (Hgeom "y" z)]; try done;
    try (by repeat constructor);
    unfold get in Hv; by destruct (geom_of feature !! _) as [?|]; simplify_eq/=.
Qed.

(** Names the record that [normalize] returns on a concrete feature. *)
Ltac run_normalize self feature r Hr :=
  assert (∃ r, DentonCADClient.normalize self feature = Ok r) as [r Hr]
    by (vm_compute; eexists; reflexivity).

(** Whether [normalize] returns depends on the geometry only. *)
Lemma normalize_same_geometry self feature feature' r :
  feature_geometry feature = feature_geometry feature' →
  DentonCADClient.normalize self feature = Ok r →
  ∃ r', DentonCADClient.normalize self feature' = Ok r'.
Proof.
  unfold DentonCADClient.normalize. intros <-.
  destruct (DentonCADClient.float_if_number (get _ "x")); [|done].
  destruct (DentonCADClient.float_if_number (get _ "y")); [|done].
  by eexists.
Qed.

Lemma truthy_not_none v : truthy v = true → DentonCADClient.str_or_none v = Some (to_str v).
Proof. by destruct v. Qed.

(** Removing a falsy attribute that is not the last alias of a chain leaves
    the chain's value unchanged. *)
Lemma or_chain_delete attrs names k :
  truthy (get attrs k) = false → last names ≠ Some k →
  or_chain (delete k attrs) names = or_chain attrs names.
Proof.
  intros Hk.
  assert (∀ k', k' ≠ k → get (delete k attrs) k' = get attrs k') as Hne.
  { intros k' ?. unfold get. by rewrite lookup_delete_ne. }
  assert (truthy (get (delete k attrs) k) = false) as Hk'.
  { unfold get. by rewrite lookup_delete_eq. }
  induction names as [|k' [|k'' ks] IH]; intros Hlast; [done| |].
  - simpl. apply Hne. intros ->. by apply Hlast.
  - rewrite !or_chain_cons, IH by done.
    destruct (decide (k' = k)) as [->|?].
    + by rewrite !or_falsy.
    + by rewrite Hne.
Qed.

(** C1 (amended): for every raw feature and every canonical field, the value
    [normalize] selects is that of the first alias of the field's priority
    list whose attribute is truthy (present, non-null, and not 0, 0.0, the
    empty string or False), and when no alias is truthy, the value of the last
    alias; in particular, when PARCEL_ID holds a truthy value, the normalized
    parcel_id is the string form of that value, whatever ParcelID holds. *)
Theorem normalize_selects_first_truthy_alias self feature r :
  DentonCADClient.normalize self feature = Ok r →
  (∀ fld, field_of r fld
          = coerce fld (first_truthy (attrs_of feature) (aliases fld))) ∧
  (∀ v, attrs_of feature !! "PARCEL_ID" = Some v → truthy v = true →
        PropertyRecord.parcel_id r = Some (to_str v)).
Proof.
  intros Hn. split.
  - intros fld. rewrite <- or_chain_first_truthy. by apply (normalize_field self).
  - intros v Hv Ht.
    pose proof (normalize_field _ _ _ ParcelId Hn) as Hf.
    cbn [field_of coerce numeric_type aliases] in Hf.
    rewrite or_chain_cons, (get_lookup _ _ _ Hv), or_truthy in Hf by done.
    rewrite truthy_not_none in Hf by done. congruence.
Qed.

Lemma normalize_selects_first_truthy_alias_witness :
  ∃ r, DentonCADClient.normalize sample_client feature_two_ids = Ok r ∧
       attrs_of feature_two_ids !! "ParcelID" = Some (VStr "R000999") ∧
       PropertyRecord.parcel_id r = Some "R000123".
Proof.
  run_normalize sample_client feature_two_ids r Hr.
  exists r. split; [exact Hr|]. split; [vm_compute; reflexivity|].
  apply (proj2 (normalize_selects_first_truthy_alias _ _ _ Hr) (VStr "R000123"));
    vm_compute; reflexivity.
Defined.

(** C1, as stated, fails: PARCEL_ID is present and non-null (it is the integer
    0) and ParcelID holds a different value, yet the normalized parcel_id is
    the ParcelID value and not the string form of the PARCEL_ID value. *)
Lemma first_present_alias_counterexample :
  ∃ r, DentonCADClient.normalize sample_client feature_zero_id = Ok r ∧
       attrs_of feature_zero_id !! "PARCEL_ID" = Some (VInt 0) ∧
       attrs_of feature_zero_id !! "ParcelID" = Some (VStr "R000999") ∧
       first_present (attrs_of feature_zero_id) (aliases ParcelId) = VInt 0 ∧
       PropertyRecord.parcel_id r = Some "R000999" ∧
       PropertyRecord.parcel_id r ≠ Some (to_str (VInt 0)) ∧
       field_of r ParcelId
       ≠ coerce ParcelId (first_present (attrs_of feature_zero_id) (aliases ParcelId)).
Proof.
  eexists. split; [vm_compute; reflexivity|].
  repeat split; try (vm_compute; reflexivity); vm_compute; discriminate.
Qed.



(** A chain skips the aliases that hold falsy values, as long as one alias
    is left after them. *)
Lemma or_chain_skip_falsy attrs skipped later :
  Forall (λ a, truthy (get attrs a) = false) skipped → later ≠ [] →
  or_chain attrs (skipped ++ later) = or_chain attrs later.
Proof.
  intros Hskip Hlater. induction Hskip as [|a skipped Ha _ IH]; [done|].
  destruct (skipped ++ later)%list as [|b l] eqn:Hl.
  - by destruct skipped, later.
  - change ((a :: skipped) ++ later)%list with (a :: (skipped ++ later))%list.
    by rewrite Hl, or_chain_cons, or_falsy.
Qed.

(** C10: alias lookup treats a present-but-falsy value under an earlier (not
    the last) alias as if the attribute were missing.  0, 0.0, the empty
    string and False are falsy; when the aliases before [k] and [k] itself
    hold falsy values, the field is what the lookup over the aliases after [k]
    selects, so it is the value of the next alias when that one is truthy;
    every field keeps its value when the falsy attribute is removed; in
    particular a feature whose LAND_VALUE is 0 normalizes to the land value
    of LandValue when that is truthy, and to an absent land_value, not 0.0,
    when it has no other land-value alias. *)
Theorem falsy_alias_treated_as_missing :
  Forall (λ v, truthy v = false) [VInt 0; VFloat 0%float; VStr ""; VBool false] ∧
  (∀ self feature r fld before k later v,
     aliases fld = (before ++ k :: later)%list → later ≠ [] →
     Forall (λ a, truthy (get (attrs_of feature) a) = false) before →
     attrs_of feature !! k = Some v → truthy v = false →
     DentonCADClient.normalize self feature = Ok r →
     field_of r fld = coerce fld (first_truthy (attrs_of feature) later) ∧
     (∀ k' later' v', later = k' :: later' →
        attrs_of feature !! k' = Some v' → truthy v' = true →
        field_of r fld = coerce fld v')) ∧
  (∀ self attrs geom fld k v r,
     k ∈ aliases fld → last (aliases fld) ≠ Some k →
     attrs !! k = Some v → truthy v = false →
     DentonCADClient.normalize self
       {| attributes := Some attrs; feature_geometry := geom |} = Ok r →
     ∃ r', DentonCADClient.normalize self
             {| attributes := Some (delete k attrs); feature_geometry := geom |} = Ok r' ∧
           field_of r fld = field_of r' fld) ∧
  (∀ self feature r,
     attrs_of feature !! "LAND_VALUE" = Some (VInt 0) →
     DentonCADClient.normalize self feature = Ok r →
     (∀ v', attrs_of feature !! "LandValue" = Some v' → truthy v' = true →
            PropertyRecord.land_value r = DentonCADClient.norm_float v') ∧
     (attrs_of feature !! "LandValue" = None →
      attrs_of feature !! "LANDVAL" = None →
      PropertyRecord.land_value r = None ∧
      PropertyRecord.land_value r ≠ Some 0%float)).
Proof.
  assert (∀ self feature r fld before k later v,
     aliases fld = (before ++ k :: later)%list → later ≠ [] →
     Forall (λ a, truthy (get (attrs_of feature) a) = false) before →
     attrs_of feature !! k = Some v → truthy v = false →
     DentonCADClient.normalize self feature = Ok r →
     field_of r fld = coerce fld (first_truthy (attrs_of feature) later))
    as Hfall.
  { intros self feature r fld before k later v Hal Hlater Hbefore Hk Hv Hn.
    rewrite (normalize_field _ _ _ fld Hn), Hal, <- or_chain_first_truthy.
    change (before ++ k :: later)%list with (before ++ [k] ++ later)%list.
    rewrite app_assoc, or_chain_skip_falsy; [done| |done].
    apply Forall_app. split; [done|]. constructor; [|done].
    by rewrite (get_lookup _ _ _ Hk). }
  split; [by repeat constructor|]. split; [|split].
  - intros self feature r fld before k later v Hal Hlater Hbefore Hk Hv Hn.
    pose proof (Hfall _ _ _ _ _ _ _ _ Hal Hlater Hbefore Hk Hv Hn) as Hf.
    split; [done|].
    intros k' later' v' -> Hk' Hv'. rewrite Hf. f_equal.
    unfold first_truthy. cbn [List.find].
    rewrite (get_lookup _ _ _ Hk'), Hv'. by apply get_lookup.
  - intros self attrs geom fld k v r _ Hlast Hk Hv Hn.
    destruct (normalize_same_geometry self
      {| attributes := Some attrs; feature_geometry := geom |}
      {| attributes := Some (delete k attrs); feature_geometry := geom |} r)
      as [r' Hn']; [done..|].
    exists r'. split; [done|].
    rewrite (normalize_field _ _ _ fld Hn), (normalize_field _ _ _ fld Hn').
    unfold attrs_of. cbn [attributes default from_option id].
    rewrite or_chain_delete; [done| |done].
    by rewrite (get_lookup _ _ _ Hk).
  - intros self feature r H1 Hn. split.
    + intros v' H2 Hv'.
      pose proof (Hfall self feature r LandValue [] "LAND_VALUE"
                    ["LandValue"; "LANDVAL"] (VInt 0) eq_refl ltac:(done)
                    ltac:(constructor) H1 eq_refl Hn) as Hf.
      unfold first_truthy in Hf. cbn [List.find] in Hf.
      rewrite (get_lookup _ _ _ H2), Hv' in Hf.
      rewrite (get_lookup _ _ _ H2) in Hf.
      cbn [field_of coerce numeric_type] in Hf. congruence.
    + intros H2 H3.
      pose proof (normalize_field _ _ _ LandValue Hn) as Hf.
      cbn [field_of coerce numeric_type aliases] in Hf.
      rewrite !or_chain_cons in Hf. cbn [or_chain] in Hf.
      rewrite (get_lookup _ _ _ H1), (get_missing _ _ H2), (get_missing _ _ H3) in Hf.
      injection Hf as ->. by vm_compute.
Qed.

Lemma falsy_alias_treated_as_missing_witness :
  (∃ r, DentonCADClient.normalize sample_client feature_zero_then_land_value = Ok r ∧
        attrs_of feature_zero_then_land_value !! "LAND_VALUE" = Some (VInt 0) ∧
        PropertyRecord.land_value r = Some 125000%float) ∧
  (∃ r, DentonCADClient.normalize sample_client feature_zero_land_value = Ok r ∧
        PropertyRecord.land_value r = None).
Proof.
  split.
  - run_normalize sample_client feature_zero_then_land_value r Hr.
    exists r. split; [exact Hr|]. split; [by vm_compute|].
    rewrite (proj1 (proj2 (proj2 (proj2 falsy_alias_treated_as_missing))
                      sample_client feature_zero_then_land_value r
                      ltac:(by vm_compute) Hr) (VInt 125000));
      by vm_compute.
  - run_normalize sample_client feature_zero_land_value r Hr.
    exists r. split; [exact Hr|].
    apply (proj2 (proj2 (proj2 (proj2 falsy_alias_treated_as_missing))
                    sample_client feature_zero_land_value r
                    ltac:(by vm_compute) Hr)); by vm_compute.
Defined.

(** C7 fails on the code: on a feature whose geometry holds the integer
    [2^1024] as [x], [normalize] raises [OverflowError] instead of returning a
    record with an absent longitude. *)
Theorem normalize_raises_on_huge_coordinate :
  geom_of feature_huge_x !! "x" = Some (VInt (2 ^ 1024)) ∧
  DentonCADClient.normalize sample_client feature_huge_x = Raise OverflowError ∧
  DentonCADClient.norm_float (VInt (2 ^ 1024)) = None.
Proof. repeat split; vm_compute; reflexivity. Qed.

(** ** Strings and the classifier *)

Lemma append_cons c (s t : string) : String c s +:+ t = String c (s +:+ t).
Proof. reflexivity. Qed.

Lemma append_nil (t : string) : "" +:+ t = t.
Proof. reflexivity. Qed.

Lemma append_assoc (s t u : string) : (s +:+ t) +:+ u = s +:+ (t +:+ u).
Proof.
  induction s as [|c s IH]; [done|]. by rewrite !append_cons, IH.
Qed.

Lemma upper_append (s t : string) : upper (s +:+ t) = upper s +:+ upper t.
Proof.
  induction s as [|c s IH]; [done|].
  rewrite append_cons. cbn [upper]. by rewrite append_cons, IH.
Qed.

Lemma startswith_spec p s : startswith p s = true ↔ ∃ t, s = p +:+ t.
Proof.
  revert s. induction p as [|a p IH]; intros s; simpl.
  - split; [eauto | done].
  - destruct s as [|b s].
    + split; [done | by intros [t ?]].
    + rewrite andb_true_iff, Ascii.eqb_eq, IH. split.
      * intros [-> [t ->]]. eauto.
      * intros [t [= -> ->]]. eauto.
Qed.

(** [sub in s] decides the occurrence of [sub] in [s]. *)
Lemma contains_spec sub s : contains sub s = true ↔ Contains sub s.
Proof.
  unfold Contains. induction s as [|c s IH].
  - simpl. rewrite orb_false_r, startswith_spec. split.
    + intros [t Ht]. by exists "", t.
    + intros ([|? ?] & post & H); [eauto | done].
  - cbn [contains]. rewrite orb_true_iff, startswith_spec, IH. split.
    + intros [[t Ht] | (pre & post & ->)].
      * by exists "", t.
      * by exists (String c pre), post.
    + intros ([|c' pre] & post & H).
      * left. eauto.
      * right. injection H as <- ->. eauto.
Qed.

Lemma contains_prefix sub (s t : string) :
  contains sub s = true → contains sub (s +:+ t) = true.
Proof.
  rewrite !contains_spec. intros (pre & post & ->).
  exists pre, (post +:+ t). by rewrite !append_assoc.
Qed.

Lemma to_str_get_default attrs k :
  to_str (get_default attrs k (VStr "")) = from_option to_str "" (attrs !! k).
Proof. unfold get_default. by destruct (attrs !! k). Qed.

(** The text the classifier searches is the combined text of the
    specification. *)
Lemma is_single_family_text attrs :
  DentonCADClient.is_single_family attrs
  = contains "SINGLE" (combined_text attrs) || contains "SF" (combined_text attrs).
Proof.
  unfold DentonCADClient.is_single_family, combined_text, classifier_fields.
  cbn [map]. by rewrite !to_str_get_default.
Qed.

(** C4: [is_single_family] is true exactly when the uppercase, space-joined
    string forms (empty for a missing field) of LAND_USE, LandUse,
    PROPERTY_CLASS, PropertyClass, PROP_CLASS, PropClass and PROPERTY_TYPE
    contain "SINGLE" or "SF"; LAND_USE "single family residential" classifies
    true, and LAND_USE "commercial" with no other candidate field classifies
    false. *)
Theorem is_single_family_iff :
  (∀ attrs,
     DentonCADClient.is_single_family attrs = true ↔
     Contains "SINGLE" (combined_text attrs) ∨ Contains "SF" (combined_text attrs)) ∧
  (∀ attrs,
     attrs !! "LAND_USE" = Some (VStr "single family residential") →
     DentonCADClient.is_single_family attrs = true) ∧
  (∀ attrs,
     attrs !! "LAND_USE" = Some (VStr "commercial") →
     (∀ k, k ∈ classifier_fields → k ≠ "LAND_USE" → attrs !! k = None) →
     DentonCADClient.is_single_family attrs = false).
Proof.
  split; [|split].
  - intros attrs.
    by rewrite is_single_family_text, orb_true_iff, !contains_spec.
  - intros attrs Hlu.
    rewrite is_single_family_text, orb_true_iff. left.
    unfold combined_text, classifier_fields. cbn [map join]. rewrite Hlu.
    cbn [from_option to_str]. rewrite upper_append.
    by apply contains_prefix.
  - intros attrs Hlu Hothers.
    rewrite is_single_family_text.
    unfold combined_text. cbn [classifier_fields map]. rewrite Hlu.
    rewrite !Hothers by (unfold classifier_fields; set_solver).
    by vm_compute.
Qed.

Lemma is_single_family_iff_witness :
  DentonCADClient.is_single_family (attrs_of feature_home_1) = true ∧
  DentonCADClient.is_single_family (attrs_of feature_shop) = false.
Proof.
  split.
  - apply (proj1 (proj2 is_single_family_iff)). vm_compute. reflexivity.
  - apply (proj2 (proj2 is_single_family_iff)); [vm_compute; reflexivity|].
    intros k Hk Hne. unfold classifier_fields in Hk.
    repeat (apply elem_of_cons in Hk as [->|Hk]; [done || (vm_compute; reflexivity)|]).
    by apply elem_of_nil in Hk.
Defined.

(** ** Requests and their log *)

Lemma io_bind_ok {A B} (m : io A) (k : A → io B) log log' a :
  m log = (log', Ok a) → (m ≫= k) log = k a log'.
Proof. unfold mbind, io_bind. by intros ->. Qed.

Lemma io_bind_raise {A B} (m : io A) (k : A → io B) log log' e :
  m log = (log', Raise e) → (m ≫= k) log = (log', Raise e).
Proof. unfold mbind, io_bind. by intros ->. Qed.

(** [geocode_address] sends exactly one request, whatever comes back. *)
Lemma geocode_address_log w address log :
  (geocode_address w address log).1
  = (log ++ [NominatimGet NOMINATIM_URL
               {| q := address; format := "json"; limit := 1; addressdetails := 1 |}])%list.
Proof.
  unfold geocode_address, mbind, io_bind, send, raise, lift, mret, io_ret.
  by repeat case_match.
Qed.

(** [query_nearby] sends exactly one request, whatever comes back: to the
    layer's query endpoint, with the radius converted to meters. *)
Lemma query_nearby_log w self lon lat radius_miles log :
  ∃ p, (DentonCADClient.query_nearby w self lon lat radius_miles log).1
       = (log ++ [ArcgisGet (DentonCADClient.layer_url self +:+ "/query") p])%list ∧
       distance p = DentonCADClient.miles_to_meters radius_miles ∧
       units p = "esriSRUnit_Meter".
Proof.
  unfold DentonCADClient.query_nearby, mbind, io_bind, send, raise, lift, mret, io_ret.
  eexists. split; [by repeat case_match | by split].
Qed.

(** Once both requests are answered, [search_properties] is the pure
    computation on the features. *)
Lemma search_properties_after_query w req log log1 log2 coords features :
  geocode_address w
    (SearchRequest.address req +:+ ", " +:+ SearchRequest.county req) log
  = (log1, Ok coords) →
  DentonCADClient.query_nearby w (DentonCADClient.init w)
    (lon coords) (lat coords) (SearchRequest.radius_miles req) log1
  = (log2, Ok features) →
  search_properties w req log
  = (log2,
     records ← mapM (DentonCADClient.normalize (DentonCADClient.init w)) features;
     Ok (if SearchRequest.single_family_only req then
           (filter (λ rf, DentonCADClient.is_single_family
                            (default ∅ (attributes rf.2)) = true)
                   (zip records features)).*1
         else records)).
Proof.
  intros Hg Hq. unfold search_properties.
  rewrite (io_bind_ok _ _ _ _ _ Hg). cbn zeta.
  rewrite (io_bind_ok _ _ _ _ _ Hq).
  unfold mbind at 1, io_bind, lift.
  by destruct (mapM _ features).
Qed.

Lemma mapM_cons {A B} (g : A → result B) (x : A) (l : list A) :
  mapM g (x :: l) = y ← g x; ys ← mapM g l; Ok (y :: ys).
Proof. reflexivity. Qed.

Lemma mapM_cons_inv {A B} (g : A → result B) (x : A) (l : list A) (rs : list B) :
  mapM g (x :: l) = Ok rs →
  ∃ y ys, g x = Ok y ∧ mapM g l = Ok ys ∧ rs = y :: ys.
Proof.
  rewrite mapM_cons. destruct (g x) as [y|e]; [|done].
  destruct (mapM g l) as [ys|e]; [|done].
  intros [= <-]. eauto.
Qed.

(** Normalizing the features that pass a test gives the records, of all the
    normalized ones, whose feature passes it. *)
Lemma mapM_filter_zip {A B} (g : A → result B) (P : A → Prop)
    `{∀ x, Decision (P x)} (l : list A) (rs : list B) :
  mapM g l = Ok rs →
  mapM g (filter P l) = Ok (filter (λ rf, P rf.2) (zip rs l)).*1.
Proof.
  revert rs. induction l as [|x l IH]; intros rs.
  - by intros [= <-].
  - intros (y & ys & Hx & Hl & ->)%mapM_cons_inv.
    cbn [zip zip_with]. rewrite !filter_cons. cbn [snd].
    destruct (decide (P x)).
    + rewrite mapM_cons, Hx, (IH ys Hl). reflexivity.
    + by apply IH.
Qed.

Lemma mapM_length {A B} (g : A → result B) (l : list A) (rs : list B) :
  mapM g l = Ok rs → length rs = length l.
Proof.
  revert rs. induction l as [|x l IH]; intros rs.
  - by intros [= <-].
  - intros (y & ys & Hx & Hl & ->)%mapM_cons_inv. cbn. by rewrite (IH ys).
Qed.

(** ** The routes *)

(** C3: when single_family_only is true, the search result is exactly the
    normalized records of the returned features whose raw attributes satisfy
    the classifier, in the order of the features (and so a sublist of the
    unfiltered records). *)
Theorem search_single_family_only w req log log1 log2 coords features records :
  geocode_address w
    (SearchRequest.address req +:+ ", " +:+ SearchRequest.county req) log
  = (log1, Ok coords) →
  DentonCADClient.query_nearby w (DentonCADClient.init w)
    (lon coords) (lat coords) (SearchRequest.radius_miles req) log1
  = (log2, Ok features) →
  mapM (DentonCADClient.normalize (DentonCADClient.init w)) features = Ok records →
  SearchRequest.single_family_only req = true →
  ∃ out,
    search_properties w req log = (log2, Ok out) ∧
    mapM (DentonCADClient.normalize (DentonCADClient.init w))
      (filter (λ f, DentonCADClient.is_single_family (attrs_of f) = true) features)
    = Ok out ∧
    out `sublist_of` records.
Proof.
  intros Hg Hq Hn Hsf.
  rewrite (search_properties_after_query _ _ _ _ _ _ _ Hg Hq), Hn, Hsf.
  eexists. split; [reflexivity|]. split.
  - unfold attrs_of.
    exact (mapM_filter_zip _
      (λ f, DentonCADClient.is_single_family (default ∅ (attributes f)) = true)
      features records Hn).
  - rewrite <- (fst_zip records features) at 2
      by (rewrite (mapM_length _ _ _ Hn); lia).
    apply fmap_sublist, sublist_filter.
Qed.

Lemma search_single_family_only_witness :
  ∃ r1 r2 r3,
    mapM (DentonCADClient.normalize sample_client)
      [feature_home_1; feature_shop; feature_home_2] = Ok [r1; r2; r3] ∧
    map (λ f, DentonCADClient.is_single_family (attrs_of f))
      [feature_home_1; feature_shop; feature_home_2] = [true; false; true] ∧
    (search_properties
       (world_with_features [feature_home_1; feature_shop; feature_home_2])
       sample_request []).2 = Ok [r1; r3].
Proof.
  set (w := world_with_features [feature_home_1; feature_shop; feature_home_2]).
  edestruct (search_single_family_only w sample_request []) as (out & Hs & Hm & _);
    [vm_compute; reflexivity..|].
  do 3 eexists. split; [vm_compute; reflexivity|]. split; [vm_compute; reflexivity|].
  rewrite Hs. cbn [snd]. rewrite <- Hm. vm_compute. reflexivity.
Defined.

(** C5: when the spatial query returns an empty list of features the search
    returns the empty sequence, and the export of a request whose search
    yields no record raises NoResultsForExport instead of producing a
    spreadsheet. *)
Theorem empty_search_and_export w req log :
  (∀ log1 log2 coords,
     geocode_address w
       (SearchRequest.address req +:+ ", " +:+ SearchRequest.county req) log
     = (log1, Ok coords) →
     DentonCADClient.query_nearby w (DentonCADClient.init w)
       (lon coords) (lat coords) (SearchRequest.radius_miles req) log1
     = (log2, Ok []) →
     search_properties w req log = (log2, Ok []) ∧
     export_properties w req log = (log2, Raise NoResultsForExport)) ∧
  (∀ log', search_properties w req log = (log', Ok []) →
           export_properties w req log = (log', Raise NoResultsForExport)).
Proof.
  assert (∀ log', search_properties w req log = (log', Ok []) →
                  export_properties w req log = (log', Raise NoResultsForExport))
    as Hexport.
  { intros log' Hs. unfold export_properties.
    by rewrite (io_bind_ok _ _ _ _ _ Hs). }
  split; [|done].
  intros log1 log2 coords Hg Hq.
  assert (search_properties w req log = (log2, Ok [])) as Hs.
  { rewrite (search_properties_after_query _ _ _ _ _ _ _ Hg Hq).
    by destruct (SearchRequest.single_family_only req). }
  by auto.
Qed.

Lemma empty_search_and_export_witness :
  search_properties (world_with_features []) sample_request []
  = ((search_properties (world_with_features []) sample_request []).1, Ok []) ∧
  (export_properties (world_with_features []) sample_request []).2
  = Raise NoResultsForExport.
Proof.
  edestruct (proj1 (empty_search_and_export
                      (world_with_features []) sample_request []))
    as [Hs He]; [vm_compute; reflexivity..|].
  rewrite Hs, He. by split.
Defined.

(** C6: when the address lookup answers with an empty candidate list, the
    search raises AddressNotFound having sent the geocoding request only: no
    request goes to the spatial feature service. *)
Theorem unknown_address_stops_search w req log resp :
  nominatim w
    {| q := SearchRequest.address req +:+ ", " +:+ SearchRequest.county req;
       format := "json"; limit := 1; addressdetails := 1 |} = Ok resp →
  status_code resp = 200 →
  json resp = Ok [] →
  search_properties w req log
  = ((log ++ [NominatimGet NOMINATIM_URL
                {| q := SearchRequest.address req +:+ ", " +:+ SearchRequest.county req;
                   format := "json"; limit := 1; addressdetails := 1 |}])%list,
     Raise AddressNotFound) ∧
  spatial_calls (search_properties w req log).1 = spatial_calls log.
Proof.
  intros Hresp Hstatus Hjson.
  assert (search_properties w req log
          = ((log ++ [NominatimGet NOMINATIM_URL
                {| q := SearchRequest.address req +:+ ", " +:+ SearchRequest.county req;
                   format := "json"; limit := 1; addressdetails := 1 |}])%list,
             Raise AddressNotFound)) as Hs.
  { unfold search_properties. apply io_bind_raise.
    unfold geocode_address. erewrite io_bind_ok; [|unfold send; by rewrite Hresp].
    rewrite Hstatus. cbn [Z.eqb Pos.eqb negb].
    erewrite io_bind_ok; [|unfold lift; by rewrite Hjson].
    reflexivity. }
  split; [done|].
  rewrite Hs. cbn [fst]. unfold spatial_calls.
  by rewrite filter_app, filter_cons, filter_nil, app_nil_r.
Qed.

Lemma unknown_address_stops_search_witness :
  search_properties world_unknown_address sample_request []
  = ([NominatimGet NOMINATIM_URL
        {| q := "123 Main St, Denton, TX, Denton County, TX";
           format := "json"; limit := 1; addressdetails := 1 |}],
     Raise AddressNotFound).
Proof.
  exact (proj1 (unknown_address_stops_search world_unknown_address sample_request []
                  {| status_code := 200; text := ""; json := Ok [] |}
                  eq_refl eq_refl eq_refl)).
Defined.

(** After a successful geocoding, [search_properties] sends one more request,
    the spatial query, whatever comes back. *)
Lemma search_properties_spatial_call w req log log1 coords :
  geocode_address w
    (SearchRequest.address req +:+ ", " +:+ SearchRequest.county req) log
  = (log1, Ok coords) →
  ∃ url p, (search_properties w req log).1 = (log1 ++ [ArcgisGet url p])%list ∧
           distance p = DentonCADClient.miles_to_meters (SearchRequest.radius_miles req) ∧
           units p = "esriSRUnit_Meter".
Proof.
  intros Hg.
  destruct (query_nearby_log w (DentonCADClient.init w) (lon coords) (lat coords)
              (SearchRequest.radius_miles req) log1) as (p & Hlog & Hd & Hu).
  exists (DentonCADClient.layer_url (DentonCADClient.init w) +:+ "/query"), p.
  split; [|done].
  rewrite <- Hlog. unfold search_properties.
  rewrite (io_bind_ok _ _ _ _ _ Hg). cbn zeta.
  destruct (DentonCADClient.query_nearby w (DentonCADClient.init w) (lon coords)
              (lat coords) (SearchRequest.radius_miles req) log1)
    as [log2 [features|e]] eqn:Hq.
  - rewrite (io_bind_ok _ _ _ _ _ Hq).
    unfold mbind at 1, io_bind, lift. by destruct (mapM _ features).
  - by rewrite (io_bind_raise _ _ _ _ _ Hq).
Qed.

(** C9: the distance sent to the spatial feature service is the radius in
    miles times 1609.34, with the unit set to meters, and the search route
    hands [query_nearby] the request's radius_miles as it is; a radius of 2.0
    gives 2.0 * 1609.34, the float 3218.68. *)
Theorem radius_sent_in_meters :
  (∀ w self lon lat r log,
     ∃ p, (DentonCADClient.query_nearby w self lon lat r log).1
          = (log ++ [ArcgisGet (DentonCADClient.layer_url self +:+ "/query") p])%list ∧
          distance p = (r * 1609.34)%float ∧
          units p = "esriSRUnit_Meter") ∧
  (∀ w req log log1 coords,
     geocode_address w
       (SearchRequest.address req +:+ ", " +:+ SearchRequest.county req) log
     = (log1, Ok coords) →
     ∃ url p, (search_properties w req log).1 = (log1 ++ [ArcgisGet url p])%list ∧
              distance p = (SearchRequest.radius_miles req * 1609.34)%float ∧
              units p = "esriSRUnit_Meter") ∧
  DentonCADClient.miles_to_meters 2.0%float = (2.0 * 1609.34)%float ∧
  DentonCADClient.miles_to_meters 2.0%float = 3218.68%float.
Proof.
  split; [|split; [|split; [reflexivity | by vm_compute]]].
  - intros w self lon lat r log. apply query_nearby_log.
  - intros w req log log1 coords Hg.
    exact (search_properties_spatial_call w req log log1 coords Hg).
Qed.

Lemma radius_sent_in_meters_witness :
  ∃ log1 url p,
    (search_properties (world_with_features [feature_home_1]) sample_request []).1
    = (log1 ++ [ArcgisGet url p])%list ∧
    distance p = 3218.68%float ∧ units p = "esriSRUnit_Meter".
Proof.
  edestruct (proj1 (proj2 radius_sent_in_meters)
               (world_with_features [feature_home_1]) sample_request [])
    as (url & p & Hlog & Hd & Hu); [vm_compute; reflexivity|].
  eexists _, url, p. split; [exact Hlog|]. split; [|exact Hu].
  rewrite Hd. by vm_compute.
Defined.

(** ** Validation of the request *)

(** C8 (amended): address is required, and any string, the empty one
    included, is accepted for it; county defaults to "Denton County, TX" and
    is appended to the address, after a comma, in the geocoding query;
    radius_miles defaults to 2.0 and a given radius is accepted only when it
    is strictly greater than 0; single_family_only defaults to true. *)
Theorem search_request_validation :
  (∀ b, SearchRequest.body_address b = None →
        SearchRequest.validate b = Raise (ValidationError "address")) ∧
  (∀ b a,
     SearchRequest.body_address b = Some a →
     (∀ r, SearchRequest.body_radius_miles b = Some r → PrimFloat.ltb 0%float r = true) →
     SearchRequest.validate b
     = Ok {| SearchRequest.address := a;
             SearchRequest.county :=
               default "Denton County, TX" (SearchRequest.body_county b);
             SearchRequest.radius_miles :=
               default 2.0%float (SearchRequest.body_radius_miles b);
             SearchRequest.single_family_only :=
               default true (SearchRequest.body_single_family_only b) |}) ∧
  (∀ b r, SearchRequest.body_radius_miles b = Some r →
          PrimFloat.ltb 0%float r = false →
          ∃ e, SearchRequest.validate b = Raise e) ∧
  (∀ b req, SearchRequest.validate b = Ok req →
            PrimFloat.ltb 0%float (SearchRequest.radius_miles req) = true) ∧
  (∀ w req log,
     ∃ rest, (search_properties w req log).1
             = (log ++ NominatimGet NOMINATIM_URL
                  {| q := SearchRequest.address req +:+ ", " +:+ SearchRequest.county req;
                     format := "json"; limit := 1; addressdetails := 1 |} :: rest)%list).
Proof.
  unfold SearchRequest.validate. repeat split.
  - by intros b ->.
  - intros b a -> Hr. destruct (SearchRequest.body_radius_miles b) as [r|]; [|done].
    by rewrite (Hr r eq_refl).
  - intros b r -> Hr. rewrite Hr. destruct (SearchRequest.body_address b); eauto.
  - intros b req. destruct (SearchRequest.body_address b); [|done].
    destruct (SearchRequest.body_radius_miles b) as [r|].
    + destruct (PrimFloat.ltb 0%float r) eqn:Hr; [|done]. by intros [= <-].
    + by intros [= <-].
  - intros w req log.
    pose proof (geocode_address_log w
      (SearchRequest.address req +:+ ", " +:+ SearchRequest.county req) log) as Hlog.
    destruct (geocode_address w _ log) as [log1 [coords|e]] eqn:Hg; cbn [fst] in Hlog.
    + destruct (search_properties_spatial_call w req log log1 coords Hg)
        as (url & p & Hl & _).
      rewrite Hl, Hlog, <- app_assoc. eauto.
    + unfold search_properties.
      rewrite (io_bind_raise _ _ _ _ _ Hg). cbn [fst]. rewrite Hlog. by exists [].
Qed.

(** C8, as stated, fails: a body whose address is the empty string passes
    validation. *)
Lemma empty_address_accepted :
  SearchRequest.body_address body_empty_address = Some "" ∧
  SearchRequest.validate body_empty_address
  = Ok {| SearchRequest.address := "";
          SearchRequest.county := "Denton County, TX";
          SearchRequest.radius_miles := 2.0%float;
          SearchRequest.single_family_only := true |}.
Proof. split; reflexivity. Qed.

Lemma search_request_validation_witness :
  SearchRequest.validate
    {| SearchRequest.body_address := Some "123 Main St, Denton, TX";
       SearchRequest.body_county := None;
       SearchRequest.body_radius_miles := None;
       SearchRequest.body_single_family_only := None |}
  = Ok sample_request.
Proof.
  apply (proj1 (proj2 search_request_validation)); [reflexivity | discriminate].
Defined.

(** * Further properties of the code *)

(** ** [geocode_address] *)

Lemma take_length n (s : string) : (String.length (take n s) ≤ n)%nat.
Proof.
  revert s. induction n as [|n IH]; intros [|c s]; cbn; try lia.
  specialize (IH s). lia.
Qed.

Lemma append_length (s t : string) :
  String.length (s +:+ t) = (String.length s + String.length t)%nat.
Proof.
  induction s as [|c s IH]; [done|]. rewrite append_cons. cbn. by rewrite IH.
Qed.

(** What [geocode_address] does once the service has answered. *)
Lemma geocode_address_answered w address log resp :
  nominatim w (geocode_query address) = Ok resp →
  geocode_address w address log
  = ((log ++ [NominatimGet NOMINATIM_URL (geocode_query address)])%list,
     if negb (status_code resp =? 200) then
       Raise (HTTPException 502 ("Geocoding failed: " +:+ take 200 (text resp)))
     else
       results ← json resp;
       match results with
       | [] => Raise AddressNotFound
       | item :: _ =>
           lat ← getitem item "lat" ≫= to_float;
           lon ← getitem item "lon" ≫= to_float;
           Ok {| lat := lat; lon := lon |}
       end).
Proof.
  intros Hresp. unfold geocode_address.
  erewrite io_bind_ok; [|unfold send; fold (geocode_query address); by rewrite Hresp].
  unfold mbind, io_bind, result_bind, lift, raise, mret, io_ret.
  by repeat case_match.
Qed.

(** X1: when the geocoder answers with a status other than 200,
    [geocode_address] raises HTTPException 502 whose detail is
    "Geocoding failed: " followed by at most the first 200 characters of the
    body, so the detail is never longer than 218 characters; the body is not
    parsed. *)
Theorem geocode_address_upstream_failure w address log resp :
  nominatim w (geocode_query address) = Ok resp →
  status_code resp ≠ 200 →
  ∃ detail,
    geocode_address w address log
    = ((log ++ [NominatimGet NOMINATIM_URL (geocode_query address)])%list,
       Raise (HTTPException 502 detail)) ∧
    detail = "Geocoding failed: " +:+ take 200 (text resp) ∧
    (String.length detail ≤ 218)%nat.
Proof.
  intros Hresp Hstatus. eexists. split; [|split; [reflexivity|]].
  - rewrite (geocode_address_answered _ _ _ _ Hresp).
    by destruct (Z.eqb_spec (status_code resp) 200).
  - rewrite append_length. pose proof (take_length 200 (text resp)) as Hlen.
    change (String.length "Geocoding failed: ") with 18%nat. lia.
Qed.

Lemma geocode_address_upstream_failure_witness :
  geocode_address world_geocoder_down "1 Main St, Denton County, TX" []
  = ([NominatimGet NOMINATIM_URL (geocode_query "1 Main St, Denton County, TX")],
     Raise (HTTPException 502 "Geocoding failed: Service Unavailable")).
Proof.
  destruct (geocode_address_upstream_failure world_geocoder_down
              "1 Main St, Denton County, TX" []
              {| status_code := 503; text := "Service Unavailable";
                 json := Raise JSONDecodeError |} eq_refl)
    as (detail & Hrun & -> & _); [done|].
  exact Hrun.
Defined.

(** X2: on a 200 answer with at least one candidate, [geocode_address]
    returns the latitude and longitude of the first candidate, converted with
    [float]; the other candidates play no part. *)
Theorem geocode_address_first_candidate w address log resp item rest vlat vlon la lo :
  nominatim w (geocode_query address) = Ok resp →
  status_code resp = 200 →
  json resp = Ok (item :: rest) →
  item !! "lat" = Some vlat → to_float vlat = Ok la →
  item !! "lon" = Some vlon → to_float vlon = Ok lo →
  geocode_address w address log
  = ((log ++ [NominatimGet NOMINATIM_URL (geocode_query address)])%list,
     Ok {| lat := la; lon := lo |}).
Proof.
  intros Hresp Hstatus Hjson Hlat Hla Hlon Hlo.
  rewrite (geocode_address_answered _ _ _ _ Hresp), Hstatus, Hjson.
  cbn [negb Z.eqb Pos.eqb mbind result_bind].
  unfold getitem. rewrite Hlat, Hlon. cbn. by rewrite Hla, Hlo.
Qed.

Lemma geocode_address_first_candidate_witness :
  geocode_address (world_with_features []) "1 Main St, Denton County, TX" []
  = ([NominatimGet NOMINATIM_URL (geocode_query "1 Main St, Denton County, TX")],
     Ok {| lat := 33.2148%float; lon := (-97.1331)%float |}).
Proof.
  apply (geocode_address_first_candidate (world_with_features [])
           "1 Main St, Denton County, TX" []
           {| status_code := 200; text := ""; json := Ok one_candidate |}
           (list_to_map [("lat", VStr "33.2148"); ("lon", VStr "-97.1331")]) []
           (VStr "33.2148") (VStr "-97.1331"));
    by vm_compute.
Defined.

(** X3: a first candidate without a "lat" key makes [geocode_address] raise
    [KeyError], and one whose "lat" does not convert makes it raise the
    conversion's exception: neither is reported as AddressNotFound or as a
    502. *)
Theorem geocode_address_malformed_candidate w address log resp item rest :
  nominatim w (geocode_query address) = Ok resp →
  status_code resp = 200 →
  json resp = Ok (item :: rest) →
  (item !! "lat" = None →
   geocode_address w address log
   = ((log ++ [NominatimGet NOMINATIM_URL (geocode_query address)])%list,
      Raise (KeyError "lat"))) ∧
  (∀ v e, item !! "lat" = Some v → to_float v = Raise e →
   geocode_address w address log
   = ((log ++ [NominatimGet NOMINATIM_URL (geocode_query address)])%list,
      Raise e)).
Proof.
  intros Hresp Hstatus Hjson.
  rewrite (geocode_address_answered _ _ _ _ Hresp), Hstatus, Hjson.
  cbn [negb Z.eqb Pos.eqb mbind result_bind].
  unfold getitem. split.
  - by intros ->.
  - intros v e -> Hv. cbn. by rewrite Hv.
Qed.

Lemma geocode_address_malformed_candidate_witness :
  geocode_address world_candidate_without_lat "1 Main St, Denton County, TX" []
  = ([NominatimGet NOMINATIM_URL (geocode_query "1 Main St, Denton County, TX")],
     Raise (KeyError "lat")).
Proof.
  apply (proj1 (geocode_address_malformed_candidate world_candidate_without_lat
                  "1 Main St, Denton County, TX" []
                  {| status_code := 200; text := "";
                     json := Ok [list_to_map [("lon", VStr "-97.1331")]] |}
                  (list_to_map [("lon", VStr "-97.1331")]) []
                  eq_refl eq_refl eq_refl)).
  by vm_compute.
Defined.

(** ** [query_nearby] *)

(** What [query_nearby] does once the layer has answered. *)
Lemma query_nearby_answered w self lon lat radius_miles log resp :
  arcgis w (DentonCADClient.layer_url self +:+ "/query")
    (spatial_query lon lat radius_miles) = Ok resp →
  DentonCADClient.query_nearby w self lon lat radius_miles log
  = ((log ++ [ArcgisGet (DentonCADClient.layer_url self +:+ "/query")
                (spatial_query lon lat radius_miles)])%list,
     if negb (status_code resp =? 200) then
       Raise (HTTPException 502 ("Denton CAD query failed: " +:+ take 200 (text resp)))
     else
       data ← json resp;
       match error data with
       | Some e => Raise (HTTPException 502 ("Denton CAD error: " +:+ e))
       | None => Ok (default [] (features data))
       end).
Proof.
  intros Hresp. unfold DentonCADClient.query_nearby.
  erewrite io_bind_ok;
    [|unfold send; fold (spatial_query lon lat radius_miles); by rewrite Hresp].
  unfold mbind, io_bind, result_bind, lift, raise, mret, io_ret.
  by repeat case_match.
Qed.

(** X4: when the layer answers with a status other than 200, [query_nearby]
    raises HTTPException 502 whose detail is "Denton CAD query failed: "
    followed by at most the first 200 characters of the body (at most 225
    characters in all). *)
Theorem query_nearby_upstream_failure w self lon lat radius_miles log resp :
  arcgis w (DentonCADClient.layer_url self +:+ "/query")
    (spatial_query lon lat radius_miles) = Ok resp →
  status_code resp ≠ 200 →
  ∃ detail,
    (DentonCADClient.query_nearby w self lon lat radius_miles log).2
    = Raise (HTTPException 502 detail) ∧
    detail = "Denton CAD query failed: " +:+ take 200 (text resp) ∧
    (String.length detail ≤ 225)%nat.
Proof.
  intros Hresp Hstatus. eexists. split; [|split; [reflexivity|]].
  - rewrite (query_nearby_answered _ _ _ _ _ _ _ Hresp).
    by destruct (Z.eqb_spec (status_code resp) 200).
  - rewrite append_length. pose proof (take_length 200 (text resp)) as Hlen.
    change (String.length "Denton CAD query failed: ") with 25%nat. lia.
Qed.

Lemma query_nearby_upstream_failure_witness :
  (DentonCADClient.query_nearby world_layer_down sample_client
     (-97.1331)%float 33.2148%float 2.0%float []).2
  = Raise (HTTPException 502 "Denton CAD query failed: Internal Server Error").
Proof.
  destruct (query_nearby_upstream_failure world_layer_down sample_client
              (-97.1331)%float 33.2148%float 2.0%float []
              {| status_code := 500; text := "Internal Server Error";
                 json := Raise JSONDecodeError |} eq_refl)
    as (detail & Hrun & -> & _); [done|].
  exact Hrun.
Defined.

(** X5: a 200 answer that carries an [error] payload makes [query_nearby]
    raise HTTPException 502 with that payload in the detail, also when the
    answer has features beside it: the features are not returned. *)
Theorem query_nearby_error_payload w self lon lat radius_miles log resp data e :
  arcgis w (DentonCADClient.layer_url self +:+ "/query")
    (spatial_query lon lat radius_miles) = Ok resp →
  status_code resp = 200 →
  json resp = Ok data →
  error data = Some e →
  (DentonCADClient.query_nearby w self lon lat radius_miles log).2
  = Raise (HTTPException 502 ("Denton CAD error: " +:+ e)).
Proof.
  intros Hresp Hstatus Hjson Herr.
  rewrite (query_nearby_answered _ _ _ _ _ _ _ Hresp), Hstatus, Hjson.
  cbn [negb Z.eqb Pos.eqb mbind result_bind snd]. by rewrite Herr.
Qed.

Lemma query_nearby_error_payload_witness :
  (DentonCADClient.query_nearby world_layer_error sample_client
     (-97.1331)%float 33.2148%float 2.0%float []).2
  = Raise (HTTPException 502
             "Denton CAD error: {'code': 400, 'message': 'Invalid query'}").
Proof.
  exact (query_nearby_error_payload world_layer_error sample_client
           (-97.1331)%float 33.2148%float 2.0%float []
           {| status_code := 200; text := "";
              json := Ok {| error := Some "{'code': 400, 'message': 'Invalid query'}";
                            features := Some [feature_home_1] |} |}
           _ _ eq_refl eq_refl eq_refl eq_refl).
Defined.

(** X6: a 200 answer without an [error] payload makes [query_nearby] return
    the features as they came, in their order, and the empty list when the
    answer has no [features] key. *)
Theorem query_nearby_success w self lon lat radius_miles log resp data :
  arcgis w (DentonCADClient.layer_url self +:+ "/query")
    (spatial_query lon lat radius_miles) = Ok resp →
  status_code resp = 200 →
  json resp = Ok data →
  error data = None →
  (∀ fs, features data = Some fs →
         (DentonCADClient.query_nearby w self lon lat radius_miles log).2 = Ok fs) ∧
  (features data = None →
   (DentonCADClient.query_nearby w self lon lat radius_miles log).2 = Ok []).
Proof.
  intros Hresp Hstatus Hjson Herr.
  rewrite (query_nearby_answered _ _ _ _ _ _ _ Hresp), Hstatus, Hjson.
  cbn [negb Z.eqb Pos.eqb mbind result_bind snd]. rewrite Herr.
  split; [intros fs ->|intros ->]; done.
Qed.

Lemma query_nearby_success_witness :
  (DentonCADClient.query_nearby world_no_features_key sample_client
     (-97.1331)%float 33.2148%float 2.0%float []).2 = Ok [].
Proof.
  apply (proj2 (query_nearby_success world_no_features_key sample_client
                  (-97.1331)%float 33.2148%float 2.0%float []
                  {| status_code := 200; text := "";
                     json := Ok {| error := None; features := None |} |}
                  {| error := None; features := None |}
                  eq_refl eq_refl eq_refl eq_refl)).
  reflexivity.
Defined.

(** ** [normalize] *)

Lemma get_int_lookup (m : gmap string value) k z :
  get m k = VInt z ↔ m !! k = Some (VInt z).
Proof.
  unfold get. destruct (m !! k) as [v|]; simpl; [|done].
  split; [by intros -> | by intros [= ->]].
Qed.

(** On a feature whose members are objects, [normalize] raises exactly when
    a coordinate is an integer too large for a float. *)
Lemma normalize_overflow self feature e :
  DentonCADClient.normalize self feature = Raise e ↔
  e = OverflowError ∧
  ∃ k z, k ∈ ["x"; "y"] ∧ geom_of feature !! k = Some (VInt z) ∧
         float_of_int z = Raise OverflowError.
Proof.
  split.
  - intros Hn.
    destruct (normalize_raise _ _ _ Hn) as [H|H];
      apply float_if_number_raise in H as (-> & z & Hv & Hz);
      (split; [done|]); [exists "x", z | exists "y", z];
      (split; [by repeat constructor|]); by rewrite <- get_int_lookup.
  - intros (-> & k & z & Hk & Hv & Hz).
    destruct (DentonCADClient.normalize self feature) as [r|e] eqn:Hn.
    + exfalso. revert Hn. unfold DentonCADClient.normalize.
      fold (attrs_of feature) (geom_of feature).
      apply get_int_lookup in Hv.
      assert (DentonCADClient.float_if_number (get (geom_of feature) k)
              = Raise OverflowError) as Hf.
      { rewrite Hv. unfold DentonCADClient.float_if_number. cbn. by rewrite Hz. }
      apply list_elem_of_In in Hk. destruct Hk as [<-|[<-|[]]]; rewrite Hf; [done|].
      by destruct (DentonCADClient.float_if_number (get (geom_of feature) "x")).
    + f_equal.
      destruct (normalize_raise _ _ _ Hn) as [H|H];
        by apply float_if_number_raise in H as (-> & _).
Qed.

(** X7: on a feature as it is parsed, [normalize] raises [AttributeError]
    exactly when the feature is not an object, its geometry is a truthy value
    that is not an object, or its attributes are null or not an object;
    otherwise it raises exactly when the [x] or the [y] of the geometry is an
    integer too large for a float, and then [OverflowError]; on every other
    feature it returns a record. *)
Theorem normalize_parsed_raises_iff self feature e :
  normalize_parsed self feature = Raise e ↔
  (e = AttributeError ∧ not_gettable feature) ∨
  (e = OverflowError ∧ ¬ not_gettable feature ∧
   ∃ k z, k ∈ ["x"; "y"] ∧ parsed_geometry feature !! k = Some (VInt z) ∧
          float_of_int z = Raise OverflowError).
Proof.
  destruct feature as [|attrs_member geom_member]; cbn [normalize_parsed not_gettable].
  { split; [intros [= <-]; by left | ].
    intros [[-> _] | (_ & Hne & _)]; [done | by destruct Hne]. }
  assert (∀ a g, DentonCADClient.normalize self
                   {| attributes := a; feature_geometry := g |} = Raise e ↔
                 e = OverflowError ∧
                 ∃ k z, k ∈ ["x"; "y"] ∧ default ∅ g !! k = Some (VInt z) ∧
                        float_of_int z = Raise OverflowError) as Hn.
  { intros a g. apply normalize_overflow. }
  assert (∀ P : Prop, P → (Raise AttributeError = Raise e :> result PropertyRecord.t) ↔
            (e = AttributeError ∧ P) ∨ (e = OverflowError ∧ ¬ P ∧
              ∃ k z, k ∈ ["x"; "y"] ∧
                     parsed_geometry (FeatureObject attrs_member geom_member) !! k
                     = Some (VInt z) ∧
                     float_of_int z = Raise OverflowError)) as Hbad.
  { intros P HP. split.
    - intros [= <-]. by left.
    - intros [[-> _] | (_ & HnP & _)]; [done | by destruct HnP]. }
  assert (∀ a g (P : Prop),
            ¬ P →
            parsed_geometry (FeatureObject attrs_member geom_member) = default ∅ g →
            DentonCADClient.normalize self
              {| attributes := a; feature_geometry := g |} = Raise e ↔
            (e = AttributeError ∧ P) ∨ (e = OverflowError ∧ ¬ P ∧
              ∃ k z, k ∈ ["x"; "y"] ∧
                     parsed_geometry (FeatureObject attrs_member geom_member) !! k
                     = Some (VInt z) ∧
                     float_of_int z = Raise OverflowError)) as Hgood.
  { intros a g P HnP ->. rewrite Hn. split.
    - intros [-> Hov]. right. by repeat split.
    - intros [[_ HP] | (-> & _ & Hov)]; [by destruct HnP | by split]. }
  destruct geom_member as [| |g|[|]].
  - destruct attrs_member as [| |a|t]; cbn [mbind result_bind].
    + apply Hgood; [|done]. intros [|[|[? ?]]]; done.
    + apply Hbad. eauto.
    + apply Hgood; [|done]. intros [|[|[? ?]]]; done.
    + apply Hbad. eauto.
  - destruct attrs_member as [| |a|t]; cbn [mbind result_bind].
    + apply Hgood; [|done]. intros [|[|[? ?]]]; done.
    + apply Hbad. eauto.
    + apply Hgood; [|done]. intros [|[|[? ?]]]; done.
    + apply Hbad. eauto.
  - destruct attrs_member as [| |a|t]; cbn [mbind result_bind].
    + apply Hgood; [|done]. intros [|[|[? ?]]]; done.
    + apply Hbad. eauto.
    + apply Hgood; [|done]. intros [|[|[? ?]]]; done.
    + apply Hbad. eauto.
  - cbn [mbind result_bind]. apply Hbad. by left.
  - destruct attrs_member as [| |a|t]; cbn [mbind result_bind].
    + apply Hgood; [|done]. intros [|[|[? ?]]]; done.
    + apply Hbad. eauto.
    + apply Hgood; [|done]. intros [|[|[? ?]]]; done.
    + apply Hbad. eauto.
Qed.

Lemma or_chain_all_none attrs names :
  (∀ k, k ∈ names → get attrs k = VNone) → or_chain attrs names = VNone.
Proof.
  induction names as [|k [|k' ks] IH]; intros Hall; [done| |].
  - apply Hall. by left.
  - rewrite or_chain_cons, (Hall k) by (by left).
    rewrite or_falsy by done. apply IH. intros k0 Hk0. apply Hall. by right.
Qed.

(** X8: a field none of whose aliases is present, or present only with null,
    is unset in the normalized record: [None], never 0 or the empty
    string. *)
Theorem normalize_missing_field_unset self feature r fld :
  DentonCADClient.normalize self feature = Ok r →
  (∀ k, k ∈ aliases fld →
        attrs_of feature !! k = None ∨ attrs_of feature !! k = Some VNone) →
  field_of r fld = missing fld.
Proof.
  intros Hn Hall.
  rewrite (normalize_field _ _ _ fld Hn), or_chain_all_none.
  - by destruct fld.
  - intros k Hk. unfold get. by destruct (Hall k Hk) as [-> | ->].
Qed.

Lemma normalize_missing_field_unset_witness :
  ∃ r, DentonCADClient.normalize sample_client feature_two_ids = Ok r ∧
       PropertyRecord.owner r = None ∧ PropertyRecord.year_built r = None.
Proof.
  run_normalize sample_client feature_two_ids r Hr.
  exists r. split; [exact Hr|].
  assert (∀ fld, fld = Owner ∨ fld = YearBuilt →
            ∀ k, k ∈ aliases fld →
              attrs_of feature_two_ids !! k = None ∨
              attrs_of feature_two_ids !! k = Some VNone) as Hmiss.
  { intros fld [-> | ->] k Hk; left; cbn [aliases] in Hk;
      repeat (apply elem_of_cons in Hk as [->|Hk]; [by vm_compute|]);
      by apply elem_of_nil in Hk. }
  pose proof (normalize_missing_field_unset _ _ _ Owner Hr (Hmiss _ (or_introl eq_refl)))
    as Howner.
  pose proof (normalize_missing_field_unset _ _ _ YearBuilt Hr (Hmiss _ (or_intror eq_refl)))
    as Hyear.
  cbn in Howner, Hyear. split; congruence.
Defined.

(** X9: the longitude and latitude of a returned record are the [x] and [y]
    of the geometry when these are floats, and are unset when they are
    missing, null or strings (a numeric string is not converted). *)
Theorem normalize_coordinates self feature r :
  DentonCADClient.normalize self feature = Ok r →
  (∀ x, geom_of feature !! "x" = Some (VFloat x) → PropertyRecord.longitude r = Some x) ∧
  (∀ y, geom_of feature !! "y" = Some (VFloat y) → PropertyRecord.latitude r = Some y) ∧
  (is_number (get (geom_of feature) "x") = false → PropertyRecord.longitude r = None) ∧
  (is_number (get (geom_of feature) "y") = false → PropertyRecord.latitude r = None).
Proof.
  unfold DentonCADClient.normalize. fold (attrs_of feature) (geom_of feature).
  destruct (DentonCADClient.float_if_number (get (geom_of feature) "x"))
    as [lo|] eqn:Hx; [|done].
  destruct (DentonCADClient.float_if_number (get (geom_of feature) "y"))
    as [la|] eqn:Hy; [|done].
  intros [= <-]. cbn [PropertyRecord.longitude PropertyRecord.latitude].
  unfold DentonCADClient.float_if_number in Hx, Hy.
  repeat split.
  - intros x Hgx. rewrite (get_lookup _ _ _ Hgx) in Hx. cbn in Hx. congruence.
  - intros y Hgy. rewrite (get_lookup _ _ _ Hgy) in Hy. cbn in Hy. congruence.
  - intros Hnx. rewrite Hnx in Hx. congruence.
  - intros Hny. rewrite Hny in Hy. congruence.
Qed.

Lemma normalize_coordinates_witness :
  ∃ r, DentonCADClient.normalize sample_client feature_extra_columns = Ok r ∧
       geom_of feature_extra_columns !! "x" = Some (VStr "-97.13") ∧
       PropertyRecord.longitude r = None ∧
       PropertyRecord.latitude r = Some 33.21%float.
Proof.
  run_normalize sample_client feature_extra_columns r Hr.
  exists r. split; [exact Hr|]. split; [by vm_compute|].
  destruct (normalize_coordinates _ _ _ Hr) as (_ & Hy & Hx & _).
  split; [apply Hx | apply Hy]; by vm_compute.
Defined.

Lemma or_chain_ext attrs1 attrs2 names :
  (∀ k, k ∈ names → attrs1 !! k = attrs2 !! k) →
  or_chain attrs1 names = or_chain attrs2 names.
Proof.
  induction names as [|k [|k' ks] IH]; intros Hall; [done| |].
  - cbn. unfold get. rewrite (Hall k); [done | by left].
  - rewrite !or_chain_cons, IH by (intros k0 Hk0; apply Hall; by right).
    f_equal. unfold get. rewrite (Hall k); [done | by left].
Qed.

(** The coordinates of a returned record are the converted [x] and [y]. *)
Lemma normalize_ok_coordinates self feature r :
  DentonCADClient.normalize self feature = Ok r →
  DentonCADClient.float_if_number (get (geom_of feature) "x")
  = Ok (PropertyRecord.longitude r) ∧
  DentonCADClient.float_if_number (get (geom_of feature) "y")
  = Ok (PropertyRecord.latitude r).
Proof.
  unfold DentonCADClient.normalize. fold (attrs_of feature) (geom_of feature).
  destruct (DentonCADClient.float_if_number (get (geom_of feature) "x")); [|done].
  destruct (DentonCADClient.float_if_number (get (geom_of feature) "y")); [|done].
  by intros [= <-].
Qed.

(** A record is determined by its eleven attribute fields and its
    coordinates. *)
Lemma record_ext (r1 r2 : PropertyRecord.t) :
  (∀ fld, field_of r1 fld = field_of r2 fld) →
  PropertyRecord.longitude r1 = PropertyRecord.longitude r2 →
  PropertyRecord.latitude r1 = PropertyRecord.latitude r2 →
  r1 = r2.
Proof.
  intros H Hlo Hla. destruct r1, r2.
  pose proof (H ParcelId). pose proof (H Address). pose proof (H Owner).
  pose proof (H LandValue). pose proof (H ImprovementValue).
  pose proof (H TotalValue). pose proof (H YearBuilt). pose proof (H LotSize).
  pose proof (H LegalDescription). pose proof (H PropertyClass).
  pose proof (H LandUse). cbn in *. by simplify_eq.
Qed.

(** X10: [normalize] reads nothing but the aliases of its fields and the [x]
    and [y] of the geometry: two features that agree on these normalize to
    the same outcome, whatever else they carry. *)
Theorem normalize_reads_only_aliases self feature1 feature2 :
  (∀ fld k, k ∈ aliases fld → attrs_of feature1 !! k = attrs_of feature2 !! k) →
  geom_of feature1 !! "x" = geom_of feature2 !! "x" →
  geom_of feature1 !! "y" = geom_of feature2 !! "y" →
  DentonCADClient.normalize self feature1 = DentonCADClient.normalize self feature2.
Proof.
  intros Hattrs Hx Hy.
  assert (get (geom_of feature1) "x" = get (geom_of feature2) "x") as Hgx
    by (unfold get; by rewrite Hx).
  assert (get (geom_of feature1) "y" = get (geom_of feature2) "y") as Hgy
    by (unfold get; by rewrite Hy).
  destruct (DentonCADClient.normalize self feature1) as [r1|e1] eqn:H1,
           (DentonCADClient.normalize self feature2) as [r2|e2] eqn:H2.
  - f_equal.
    destruct (normalize_ok_coordinates _ _ _ H1) as [Hx1 Hy1].
    destruct (normalize_ok_coordinates _ _ _ H2) as [Hx2 Hy2].
    apply record_ext; [|congruence..].
    intros fld.
    rewrite (normalize_field _ _ _ fld H1), (normalize_field _ _ _ fld H2).
    f_equal. apply or_chain_ext. intros k Hk. by apply (Hattrs fld).
  - exfalso. destruct (normalize_ok_coordinates _ _ _ H1) as [Hx1 Hy1].
    destruct (normalize_raise _ _ _ H2); congruence.
  - exfalso. destruct (normalize_ok_coordinates _ _ _ H2) as [Hx2 Hy2].
    destruct (normalize_raise _ _ _ H1); congruence.
  - f_equal.
    destruct (normalize_raise _ _ _ H1) as [Ha|Ha], (normalize_raise _ _ _ H2) as [Hb|Hb];
      apply float_if_number_raise in Ha as (-> & _);
      by apply float_if_number_raise in Hb as (-> & _).
Qed.

Lemma normalize_reads_only_aliases_witness :
  DentonCADClient.normalize sample_client feature_extra_columns
  = DentonCADClient.normalize sample_client
      (feature_of [("LAND_USE", VStr "single family residential")]
         (Some [("x", VStr "-97.13"); ("y", VFloat 33.21%float); ("z", VInt 210)])).
Proof.
  apply normalize_reads_only_aliases; [|by vm_compute..].
  intros fld k Hk.
  destruct fld; cbn [aliases] in Hk;
    repeat (apply elem_of_cons in Hk as [->|Hk]; [by vm_compute|]);
    by apply elem_of_nil in Hk.
Defined.

(** ** [norm_int] *)

(** X11: [norm_int], which goes through a float, gives back every integer
    from 0 to 9999 unchanged; so a YEAR_BUILT holding an integer from 1 to
    9999 comes out of [normalize] as that integer. *)
Theorem norm_int_keeps_year z :
  0 ≤ z ≤ 9999 →
  DentonCADClient.norm_int (VInt z) = Some z ∧
  (∀ self feature r,
     DentonCADClient.normalize self feature = Ok r →
     attrs_of feature !! "YEAR_BUILT" = Some (VInt z) → z ≠ 0 →
     PropertyRecord.year_built r = Some z).
Proof.
  intros Hz.
  assert (DentonCADClient.norm_int (VInt z) = Some z) as Hint.
  { assert (forallb (λ n, bool_decide (DentonCADClient.norm_int (VInt n) = Some n))
              (seqZ 0 10000) = true) as Hall by (by vm_compute).
    rewrite forallb_forall in Hall.
    specialize (Hall z). rewrite bool_decide_eq_true in Hall.
    apply Hall, list_elem_of_In, elem_of_seqZ. lia. }
  split; [done|].
  intros self feature r Hn Hy Hne.
  pose proof (normalize_field _ _ _ YearBuilt Hn) as Hf.
  cbn [field_of coerce numeric_type aliases] in Hf.
  rewrite or_chain_cons, (get_lookup _ _ _ Hy), or_truthy in Hf.
  - congruence.
  - cbn. by destruct (Z.eqb_spec z 0).
Qed.

Lemma norm_int_keeps_year_witness :
  ∃ r, DentonCADClient.normalize sample_client feature_built_1987 = Ok r ∧
       PropertyRecord.year_built r = Some 1987.
Proof.
  run_normalize sample_client feature_built_1987 r Hr.
  exists r. split; [exact Hr|].
  apply (proj2 (norm_int_keeps_year 1987 ltac:(lia)) sample_client
           feature_built_1987 r Hr); by vm_compute.
Defined.

(** ** [is_single_family] *)

Lemma startswith_before_space sub (a b : string) :
  no_space sub = true →
  startswith sub (a +:+ String " " b) = startswith sub a.
Proof.
  revert a. induction sub as [|x sub IH]; intros a Hns; [done|].
  cbn in Hns. apply andb_true_iff in Hns as [Hx Hns].
  destruct a as [|c a].
  - rewrite append_nil. cbn. apply negb_true_iff in Hx. by rewrite Hx.
  - rewrite append_cons. cbn. by rewrite IH.
Qed.

Lemma contains_across_space sub (a b : string) :
  no_space sub = true →
  contains sub (a +:+ String " " b) = contains sub a || contains sub b.
Proof.
  intros Hns. induction a as [|c a IH].
  - rewrite append_nil. cbn [contains].
    rewrite <- (append_nil (String " " b)), startswith_before_space by done.
    by rewrite orb_false_r.
  - rewrite append_cons. cbn [contains].
    rewrite <- append_cons, startswith_before_space, IH by done.
    by rewrite orb_assoc.
Qed.

Lemma upper_join_space parts :
  upper (join " " parts) = join " " (map upper parts).
Proof.
  induction parts as [|p [|p' ps] IH]; [done..|].
  cbn [join map] in *. by rewrite !upper_append, IH.
Qed.

Lemma contains_join_space sub parts :
  no_space sub = true → sub ≠ "" →
  contains sub (join " " parts) = existsb (contains sub) parts.
Proof.
  intros Hns Hne. induction parts as [|p [|p' ps] IH].
  - destruct sub; [done|]. reflexivity.
  - cbn. by rewrite orb_false_r.
  - cbn [join existsb] in *.
    change (" " +:+ ?t) with (String " " t).
    by rewrite contains_across_space, IH.
Qed.

(** X12: [is_single_family] is true exactly when one of the seven candidate
    fields, taken alone, has an uppercase string form that contains "SINGLE"
    or "SF": a match never spans two fields, the attributes outside the seven
    play no part, and a feature with none of the seven is not single-family. *)
Theorem is_single_family_per_field attrs :
  (DentonCADClient.is_single_family attrs = true ↔
   ∃ k, k ∈ classifier_fields ∧
        (Contains "SINGLE" (candidate_text attrs k) ∨
         Contains "SF" (candidate_text attrs k))) ∧
  ((∀ k, k ∈ classifier_fields → attrs !! k = None) →
   DentonCADClient.is_single_family attrs = false).
Proof.
  assert (DentonCADClient.is_single_family attrs
          = existsb (λ k, contains "SINGLE" (candidate_text attrs k)
                          || contains "SF" (candidate_text attrs k))
              classifier_fields) as Heq.
  { rewrite is_single_family_text. unfold combined_text.
    rewrite upper_join_space, map_map, !contains_join_space by done.
    fold (candidate_text attrs).
    generalize classifier_fields. intros l.
    induction l as [|k l IH]; [done|]. cbn [map existsb]. rewrite <- IH.
    destruct (contains "SINGLE" (candidate_text attrs k)),
             (contains "SF" (candidate_text attrs k)); cbn;
      rewrite ?orb_true_r; done. }
  split.
  - rewrite Heq, existsb_exists. split.
    + intros (k & Hk & Hm). exists k. split; [by apply list_elem_of_In|].
      by rewrite <- !contains_spec, <- orb_true_iff.
    + intros (k & Hk & Hm). exists k. split; [by apply list_elem_of_In|].
      by rewrite orb_true_iff, !contains_spec.
  - intros Hnone. rewrite Heq.
    apply not_true_is_false. rewrite existsb_exists.
    intros (k & Hk & Hm). apply list_elem_of_In in Hk.
    unfold candidate_text in Hm. by rewrite (Hnone k Hk) in Hm.
Qed.

Lemma is_single_family_per_field_witness :
  DentonCADClient.is_single_family (attrs_of feature_home_2) = true ∧
  DentonCADClient.is_single_family (attrs_of feature_built_1987) = false.
Proof.
  split.
  - apply (proj1 (is_single_family_per_field _)).
    exists "PropClass". split; [by repeat constructor|]. right.
    apply contains_spec. by vm_compute.
  - apply (proj2 (is_single_family_per_field _)).
    intros k Hk. unfold classifier_fields in Hk.
    repeat (apply elem_of_cons in Hk as [->|Hk]; [by vm_compute|]).
    by apply elem_of_nil in Hk.
Defined.

(** ** [search_properties] *)

(** [query_nearby] logs the query it builds from its arguments. *)
Lemma query_nearby_request w self lon lat radius_miles log :
  (DentonCADClient.query_nearby w self lon lat radius_miles log).1
  = (log ++ [ArcgisGet (DentonCADClient.layer_url self +:+ "/query")
               (spatial_query lon lat radius_miles)])%list.
Proof.
  unfold DentonCADClient.query_nearby, mbind, io_bind, send, raise, lift, mret, io_ret.
  by repeat case_match.
Qed.

(** The three stages of [search_properties], with the filter as a flag. *)
Lemma search_properties_stages w req log :
  search_properties w req log =
  match geocode_address w
          (SearchRequest.address req +:+ ", " +:+ SearchRequest.county req) log with
  | (log1, Raise e) => (log1, Raise e)
  | (log1, Ok coords) =>
      match DentonCADClient.query_nearby w (DentonCADClient.init w)
              (lon coords) (lat coords) (SearchRequest.radius_miles req) log1 with
      | (log2, Raise e) => (log2, Raise e)
      | (log2, Ok features) =>
          (log2,
           records ← mapM (DentonCADClient.normalize (DentonCADClient.init w)) features;
           Ok (if SearchRequest.single_family_only req then
                 (filter (λ rf, DentonCADClient.is_single_family
                                  (default ∅ (attributes rf.2)) = true)
                         (zip records features)).*1
               else records))
      end
  end.
Proof.
  destruct (geocode_address w _ log) as [log1 [coords|e]] eqn:Hg.
  - destruct (DentonCADClient.query_nearby w _ _ _ _ log1) as [log2 [features|e]] eqn:Hq.
    + by apply search_properties_after_query with log1 coords.
    + unfold search_properties. rewrite (io_bind_ok _ _ _ _ _ Hg). cbn zeta.
      by rewrite (io_bind_raise _ _ _ _ _ Hq).
  - unfold search_properties. by rewrite (io_bind_raise _ _ _ _ _ Hg).
Qed.

(** X13: whatever makes the geocoding fail (a 502, AddressNotFound, a
    malformed candidate, an exception of the HTTP client), [search_properties]
    raises the same exception and sends nothing to the spatial feature
    service. *)
Theorem search_geocoding_failure w req log log1 e :
  geocode_address w
    (SearchRequest.address req +:+ ", " +:+ SearchRequest.county req) log
  = (log1, Raise e) →
  search_properties w req log = (log1, Raise e) ∧
  spatial_calls log1 = spatial_calls log.
Proof.
  intros Hg. split.
  - by rewrite search_properties_stages, Hg.
  - pose proof (geocode_address_log w
      (SearchRequest.address req +:+ ", " +:+ SearchRequest.county req) log) as Hlog.
    rewrite Hg in Hlog. cbn [fst] in Hlog. subst log1. unfold spatial_calls.
    by rewrite filter_app, filter_cons, filter_nil, app_nil_r.
Qed.

Lemma search_geocoding_failure_witness :
  search_properties world_geocoder_down sample_request []
  = ([NominatimGet NOMINATIM_URL
        (geocode_query "123 Main St, Denton, TX, Denton County, TX")],
     Raise (HTTPException 502 "Geocoding failed: Service Unavailable")).
Proof.
  apply (proj1 (search_geocoding_failure world_geocoder_down sample_request [] _ _
                  ltac:(vm_compute; reflexivity))).
Defined.

(** X14: when the geocoding succeeds and the spatial query fails,
    [search_properties] raises the exception of the spatial query unchanged:
    it returns no partial result. *)
Theorem search_spatial_query_failure w req log log1 log2 coords e :
  geocode_address w
    (SearchRequest.address req +:+ ", " +:+ SearchRequest.county req) log
  = (log1, Ok coords) →
  DentonCADClient.query_nearby w (DentonCADClient.init w)
    (lon coords) (lat coords) (SearchRequest.radius_miles req) log1
  = (log2, Raise e) →
  search_properties w req log = (log2, Raise e).
Proof. intros Hg Hq. by rewrite search_properties_stages, Hg, Hq. Qed.

Lemma search_spatial_query_failure_witness :
  (search_properties world_layer_error sample_request []).2
  = Raise (HTTPException 502
             "Denton CAD error: {'code': 400, 'message': 'Invalid query'}").
Proof.
  erewrite (search_spatial_query_failure world_layer_error sample_request []);
    [reflexivity | vm_compute; reflexivity | vm_compute; reflexivity].
Defined.

(** X15: with single_family_only false the search returns the normalized
    record of every feature, one per feature and in the order of the
    features. *)
Theorem search_without_filter w req log log1 log2 coords features records :
  geocode_address w
    (SearchRequest.address req +:+ ", " +:+ SearchRequest.county req) log
  = (log1, Ok coords) →
  DentonCADClient.query_nearby w (DentonCADClient.init w)
    (lon coords) (lat coords) (SearchRequest.radius_miles req) log1
  = (log2, Ok features) →
  mapM (DentonCADClient.normalize (DentonCADClient.init w)) features = Ok records →
  SearchRequest.single_family_only req = false →
  search_properties w req log = (log2, Ok records) ∧
  Forall2 (λ feature r, DentonCADClient.normalize (DentonCADClient.init w) feature = Ok r)
    features records.
Proof.
  intros Hg Hq Hn Hflag. split.
  - by rewrite search_properties_stages, Hg, Hq, Hn, Hflag.
  - clear Hq. revert records Hn. induction features as [|x l IH]; intros records.
    + intros [= <-]. constructor.
    + intros (y & ys & Hx & Hl & ->)%mapM_cons_inv. constructor; auto.
Qed.

Lemma search_without_filter_witness :
  ∃ r1 r2 r3,
    (search_properties
       (world_with_features [feature_home_1; feature_shop; feature_home_2])
       request_without_filter []).2 = Ok [r1; r2; r3] ∧
    DentonCADClient.normalize sample_client feature_shop = Ok r2.
Proof.
  set (w := world_with_features [feature_home_1; feature_shop; feature_home_2]).
  assert (∃ r1 r2 r3, mapM (DentonCADClient.normalize (DentonCADClient.init w))
            [feature_home_1; feature_shop; feature_home_2] = Ok [r1; r2; r3])
    as (r1 & r2 & r3 & Hn) by (vm_compute; do 3 eexists; reflexivity).
  edestruct (search_without_filter w request_without_filter [])
    as [Hs Hall]; [vm_compute; reflexivity | vm_compute; reflexivity | exact Hn | reflexivity |].
  exists r1, r2, r3. rewrite Hs. split; [reflexivity|].
  apply Forall2_cons_1 in Hall as [_ Hall].
  by apply Forall2_cons_1 in Hall as [Hshop _].
Defined.

Lemma mapM_raise_elem {A B} (g : A → result B) (l : list A) x e :
  x ∈ l → g x = Raise e → ∃ e', mapM g l = Raise e'.
Proof.
  intros Hin Hx. induction l as [|y l IH]; [by apply elem_of_nil in Hin|].
  rewrite mapM_cons. apply elem_of_cons in Hin as [<-|Hin].
  - rewrite Hx. by eexists.
  - destruct (g y); [|by eexists]. destruct (IH Hin) as [e' ->]. by eexists.
Qed.

Lemma mapM_raise_inv {A B} (g : A → result B) (l : list A) e :
  mapM g l = Raise e → ∃ x, x ∈ l ∧ g x = Raise e.
Proof.
  induction l as [|y l IH]; [done|].
  rewrite mapM_cons. destruct (g y) as [b|e'] eqn:Hy.
  - destruct (mapM g l) as [bs|e'] eqn:Hl; [done|].
    intros [= <-]. destruct (IH eq_refl) as (x & Hx & Hgx).
    exists x. split; [by right | done].
  - intros [= <-]. exists y. split; [by left | done].
Qed.

Lemma mapM_first_raise {A B} (g : A → result B) (good : list A) bad rest e :
  Forall (λ x, ∃ y, g x = Ok y) good → g bad = Raise e →
  mapM g (good ++ bad :: rest) = Raise e.
Proof.
  intros Hgood Hbad. induction Hgood as [|x good [y Hx] _ IH].
  - cbn [app]. by rewrite mapM_cons, Hbad.
  - change ((x :: good) ++ bad :: rest)%list with (x :: (good ++ bad :: rest))%list.
    by rewrite mapM_cons, Hx, IH.
Qed.

(** X16: when a returned feature does not normalize, the whole search raises
    the exception of the first such feature, with or without the
    single-family filter and also when the filter would have dropped that
    feature: every feature is normalized before any is filtered, and no
    partial result is returned. *)
Theorem search_fails_on_first_bad_feature w req log log1 log2 coords good bad rest e :
  geocode_address w
    (SearchRequest.address req +:+ ", " +:+ SearchRequest.county req) log
  = (log1, Ok coords) →
  DentonCADClient.query_nearby w (DentonCADClient.init w)
    (lon coords) (lat coords) (SearchRequest.radius_miles req) log1
  = (log2, Ok (good ++ bad :: rest)%list) →
  Forall (λ feature,
            ∃ r, DentonCADClient.normalize (DentonCADClient.init w) feature = Ok r) good →
  DentonCADClient.normalize (DentonCADClient.init w) bad = Raise e →
  search_properties w req log = (log2, Raise e).
Proof.
  intros Hg Hq Hgood Hbad.
  rewrite search_properties_stages, Hg, Hq.
  by rewrite (mapM_first_raise _ _ _ _ _ Hgood Hbad).
Qed.

Lemma search_fails_on_first_bad_feature_witness :
  DentonCADClient.is_single_family (attrs_of feature_huge_x) = false ∧
  (search_properties
     (world_with_features [feature_home_1; feature_huge_x; feature_home_2])
     sample_request []).2 = Raise OverflowError.
Proof.
  split; [by vm_compute|].
  erewrite (search_fails_on_first_bad_feature
              (world_with_features [feature_home_1; feature_huge_x; feature_home_2])
              sample_request [] _ _ _ [feature_home_1] feature_huge_x [feature_home_2]);
    [reflexivity | vm_compute; reflexivity | vm_compute; reflexivity
    | constructor; [vm_compute; eexists; reflexivity | constructor]
    | vm_compute; reflexivity].
Defined.

(** X17: switching the single-family filter on changes neither the requests
    sent nor whether the search fails; when the search succeeds, the filtered
    result is a sublist of the unfiltered one. *)
Theorem search_filter_switch w req log :
  (search_properties w (with_filter true req) log).1
  = (search_properties w (with_filter false req) log).1 ∧
  (∀ e, (search_properties w (with_filter false req) log).2 = Raise e ↔
        (search_properties w (with_filter true req) log).2 = Raise e) ∧
  (∀ all, (search_properties w (with_filter false req) log).2 = Ok all →
          ∃ out, (search_properties w (with_filter true req) log).2 = Ok out ∧
                 out `sublist_of` all).
Proof.
  rewrite !search_properties_stages. cbn [with_filter SearchRequest.address
    SearchRequest.county SearchRequest.radius_miles SearchRequest.single_family_only].
  destruct (geocode_address w _ log) as [log1 [coords|e0]]; [|by repeat split].
  destruct (DentonCADClient.query_nearby w _ _ _ _ log1) as [log2 [features|e0]];
    [|by repeat split].
  cbn [fst snd].
  destruct (mapM _ features) as [records|e0] eqn:Hn; cbn; [|by repeat split].
  split; [done|]. split; [done|].
  intros all [= <-]. eexists. split; [done|].
  rewrite <- (fst_zip records features) at 2
    by (rewrite (mapM_length _ _ _ Hn); lia).
  apply fmap_sublist, sublist_filter.
Qed.

(** X18: a search sends the geocoding request first and then at most one
    request to the spatial feature service, and the export route sends no
    request of its own. *)
Theorem search_sends_at_most_two_requests w req log :
  let geocoding :=
    NominatimGet NOMINATIM_URL
      (geocode_query (SearchRequest.address req +:+ ", " +:+ SearchRequest.county req)) in
  ((search_properties w req log).1 = (log ++ [geocoding])%list ∨
   ∃ url p, (search_properties w req log).1
            = (log ++ [geocoding; ArcgisGet url p])%list) ∧
  (export_properties w req log).1 = (search_properties w req log).1.
Proof.
  cbn zeta. split.
  - pose proof (geocode_address_log w
      (SearchRequest.address req +:+ ", " +:+ SearchRequest.county req) log) as Hlog.
    rewrite search_properties_stages.
    destruct (geocode_address w _ log) as [log1 [coords|e]]; cbn [fst] in Hlog;
      subst log1; [|by left].
    right.
    pose proof (query_nearby_request w (DentonCADClient.init w) (lon coords)
      (lat coords) (SearchRequest.radius_miles req)
      (log ++ [NominatimGet NOMINATIM_URL
                 {| q := SearchRequest.address req +:+ ", " +:+ SearchRequest.county req;
                    format := "json"; limit := 1; addressdetails := 1 |}])%list) as Hq.
    destruct (DentonCADClient.query_nearby w _ _ _ _ _) as [log2 [features|e]];
      cbn [fst] in *; subst log2; rewrite <- app_assoc; eauto.
  - unfold export_properties, mbind, io_bind.
    destruct (search_properties w req log) as [log' [[|r rs]|e]]; done.
Qed.

(** X19: after a successful geocoding, the request to the layer goes to the
    configured layer URL (the environment's override when there is one, the
    built-in URL otherwise) followed by "/query", and its point is the
    geocoded longitude, a comma, then the geocoded latitude. *)
Theorem search_spatial_request w req log log1 coords :
  geocode_address w
    (SearchRequest.address req +:+ ", " +:+ SearchRequest.county req) log
  = (log1, Ok coords) →
  ∃ p, (search_properties w req log).1
       = (log1 ++ [ArcgisGet
                     (default "https://gis.dentoncounty.gov/arcgis/rest/services/DCAD_public/MapServer/0"
                        (ARCGIS_PARCELS_URL w) +:+ "/query") p])%list ∧
       geometry p = to_str (VFloat (lon coords)) +:+ "," +:+ to_str (VFloat (lat coords)) ∧
       p = spatial_query (lon coords) (lat coords) (SearchRequest.radius_miles req).
Proof.
  intros Hg.
  exists (spatial_query (lon coords) (lat coords) (SearchRequest.radius_miles req)).
  split; [|split; reflexivity].
  rewrite search_properties_stages, Hg.
  pose proof (query_nearby_request w (DentonCADClient.init w) (lon coords)
    (lat coords) (SearchRequest.radius_miles req) log1) as Hq.
  by destruct (DentonCADClient.query_nearby w _ _ _ _ log1) as [log2 [features|e]].
Qed.

Lemma search_spatial_request_witness :
  ∃ log1 p,
    (search_properties world_overridden_url sample_request []).1
    = (log1 ++ [ArcgisGet
                  "https://gis.example.org/arcgis/rest/services/parcels/MapServer/7/query"
                  p])%list ∧
    geometry p = "-97.1331,33.2148".
Proof.
  edestruct (search_spatial_request world_overridden_url sample_request [])
    as (p & Hlog & Hgeom & _); [vm_compute; reflexivity|].
  eexists _, p. split; [exact Hlog|]. rewrite Hgeom. by vm_compute.
Defined.

(** ** [export_properties] *)


